(** * Notes service (Lab_5.js and its documented variant)

    The service keeps an ordered list of notes [{name, text}] in one JSON
    file ([options.cache]).  Every handler reads the whole file, scans or
    filters the parsed array and, for a mutation, writes the whole file
    back.  The repository holds two variants of the service:

    - [V1], src/Lab_5.js: the promise chains have no rejection handler and
      the writes are started but never awaited;
    - [V2], the variant with the swagger annotations: every chain ends in a
      [.catch] that answers 500 and every write is awaited before the
      response is finished.

    The development has three layers: the JSON text format (the platform's
    [JSON.parse] and [JSON.stringify]), JavaScript values with the property
    access the handlers use, and the handlers themselves as programs of a
    small promise monad over the file, the response object and a trace.
    Requests are served one at a time: the effects of a request, the writes
    it did not await included, come before the next request.  Overlapping
    requests are outside the model.  [serve] runs the handler of a request;
    [receive] first routes the request as Express does, the route
    [/notes/:name] matching no empty name. *)

From Stdlib Require Import String Ascii List Bool Arith NArith Lia.
Import ListNotations.
Set Warnings "-register-all,-abstract-large-number".
Open Scope string_scope.
Open Scope list_scope.

(** ** JSON values and the text format *)

Module JSON.

(** A parsed JSON document.  Strings are sequences of UTF-8 bytes.  A number
    keeps its literal: the handlers neither inspect nor create numbers.
    An object lists its properties in insertion order. *)
Inductive json : Type :=
| JNull
| JBool (b : bool)
| JNum (lit : string)
| JStr (s : string)
| JArr (items : list json)
| JObj (props : list (string * json)).

(** [o[k] = v] on the property list of an object: an existing key keeps its
    place, a new key goes last. *)
Fixpoint set_prop (k : string) (v : json) (props : list (string * json))
  : list (string * json) :=
  match props with
  | [] => [(k, v)]
  | (k', v') :: rest =>
      if String.eqb k' k then (k', v) :: rest
      else (k', v') :: set_prop k v rest
  end.

(** *** Printing: [JSON.stringify] *)

Definition hex_digit (n : N) : ascii :=
  ascii_of_N (if n <? 10 then 48 + n else 87 + n)%N.

(** The quoted form of one byte: the two-character escapes where JSON has
    one, [\u00xx] for the other control characters, the byte itself
    otherwise. *)
Definition escape_char (c : ascii) : string :=
  if Ascii.eqb c "034" then String "\" (String "034" "")
  else if Ascii.eqb c "\" then "\\"
  else if Ascii.eqb c "008" then "\b"
  else if Ascii.eqb c "009" then "\t"
  else if Ascii.eqb c "010" then "\n"
  else if Ascii.eqb c "012" then "\f"
  else if Ascii.eqb c "013" then "\r"
  else if (N_of_ascii c <? 32)%N then
    String "\" (String "u" (String "0" (String "0"
      (String (hex_digit (N_of_ascii c / 16))
         (String (hex_digit (N_of_ascii c mod 16)) "")))))
  else String c "".

Fixpoint escape (s : string) : string :=
  match s with
  | EmptyString => ""
  | String c r => (escape_char c ++ escape r)%string
  end.

Definition quote (s : string) : string :=
  String "034" (escape s ++ String "034" "")%string.

(** [Array.prototype.join] on strings. *)
Fixpoint join (sep : string) (l : list string) : string :=
  match l with
  | [] => ""
  | [x] => x
  | x :: rest => (x ++ sep ++ join sep rest)%string
  end.

Fixpoint stringify (v : json) : string :=
  match v with
  | JNull => "null"
  | JBool true => "true"
  | JBool false => "false"
  | JNum lit => lit
  | JStr s => quote s
  | JArr items => ("[" ++ join "," (map stringify items) ++ "]")%string
  | JObj props =>
      let member (kv : string * json) :=
        let (k, x) := kv in (quote k ++ ":" ++ stringify x)%string in
      ("{" ++ join "," (map member props) ++ "}")%string
  end.

(** Concrete JSON texts are written with an apostrophe where the text has a
    double quote. *)
Fixpoint js (s : string) : string :=
  match s with
  | EmptyString => ""
  | String c r => String (if Ascii.eqb c "'" then "034"%char else c) (js r)
  end.

(** *** Parsing: [JSON.parse] *)

Definition is_ws (c : ascii) : bool :=
  Ascii.eqb c " " || Ascii.eqb c "009" || Ascii.eqb c "010"
  || Ascii.eqb c "013".

Fixpoint skip_ws (s : string) : string :=
  match s with
  | String c r => if is_ws c then skip_ws r else s
  | EmptyString => s
  end.

Definition is_digit (c : ascii) : bool :=
  ((48 <=? N_of_ascii c) && (N_of_ascii c <=? 57))%N.

Definition hex_value (c : ascii) : option N :=
  let n := N_of_ascii c in
  if ((48 <=? n) && (n <=? 57))%N then Some (n - 48)%N
  else if ((97 <=? n) && (n <=? 102))%N then Some (n - 87)%N
  else if ((65 <=? n) && (n <=? 70))%N then Some (n - 55)%N
  else None.

Definition hex4 (a b c d : ascii) : option N :=
  match hex_value a, hex_value b, hex_value c, hex_value d with
  | Some x, Some y, Some z, Some w => Some (((x * 16 + y) * 16 + z) * 16 + w)%N
  | _, _, _, _ => None
  end.

(** The UTF-8 bytes of a code point. *)
Definition utf8 (n : N) : string :=
  let byte (k : N) := ascii_of_N k in
  let cont (k : N) := ascii_of_N (128 + k mod 64)%N in
  if (n <? 128)%N then String (byte n) ""
  else if (n <? 2048)%N then
    String (byte (192 + n / 64)%N) (String (cont n) "")
  else if (n <? 65536)%N then
    String (byte (224 + n / 4096)%N)
      (String (cont (n / 64)%N) (String (cont n) ""))
  else
    String (byte (240 + n / 262144)%N)
      (String (cont (n / 4096)%N) (String (cont (n / 64)%N) (String (cont n) ""))).

Definition simple_escape (e : ascii) : option ascii :=
  if Ascii.eqb e "034" then Some "034"%char
  else if Ascii.eqb e "\" then Some "\"%char
  else if Ascii.eqb e "/" then Some "/"%char
  else if Ascii.eqb e "b" then Some "008"%char
  else if Ascii.eqb e "t" then Some "009"%char
  else if Ascii.eqb e "n" then Some "010"%char
  else if Ascii.eqb e "f" then Some "012"%char
  else if Ascii.eqb e "r" then Some "013"%char
  else None.

Definition is_high_surrogate (n : N) : bool := ((55296 <=? n) && (n <? 56320))%N.
Definition is_low_surrogate (n : N) : bool := ((56320 <=? n) && (n <? 57344))%N.

Definition push (prefix : string) (r : option (string * string))
  : option (string * string) :=
  match r with
  | Some (s, rest) => Some ((prefix ++ s)%string, rest)
  | None => None
  end.

(** The characters of a string literal after its opening quote, up to and
    including the closing quote; returns the decoded string and what follows
    the literal. *)
Fixpoint parse_chars (s : string) : option (string * string) :=
  match s with
  | EmptyString => None
  | String c r =>
      if Ascii.eqb c "034" then Some ("", r)
      else if Ascii.eqb c "\" then
        match r with
        | EmptyString => None
        | String e r1 =>
            match simple_escape e with
            | Some b => push (String b "") (parse_chars r1)
            | None =>
                if Ascii.eqb e "u" then
                  match r1 with
                  | String h1 (String h2 (String h3 (String h4 r2))) =>
                      match hex4 h1 h2 h3 h4 with
                      | None => None
                      | Some n =>
                          if is_high_surrogate n then
                            match r2 with
                            | String "\" (String "u" (String l1 (String l2
                                (String l3 (String l4 r3))))) =>
                                match hex4 l1 l2 l3 l4 with
                                | Some m =>
                                    if is_low_surrogate m then
                                      push (utf8 (65536 + (n - 55296) * 1024
                                                  + (m - 56320))%N)
                                           (parse_chars r3)
                                    else push (utf8 n) (parse_chars r2)
                                | None => push (utf8 n) (parse_chars r2)
                                end
                            | _ => push (utf8 n) (parse_chars r2)
                            end
                          else push (utf8 n) (parse_chars r2)
                      end
                  | _ => None
                  end
                else None
            end
        end
      else if (N_of_ascii c <? 32)%N then None
      else push (String c "") (parse_chars r)
  end.

(** The longest prefix of digits. *)
Fixpoint span_digits (s : string) : string * string :=
  match s with
  | String c r =>
      if is_digit c then
        let (d, rest) := span_digits r in (String c d, rest)
      else ("", s)
  | EmptyString => ("", s)
  end.

Definition nonempty (s : string) : bool :=
  match s with EmptyString => false | _ => true end.

(** A number literal: an optional minus sign; a zero, or a non-zero digit
    and more digits; optionally a point and one digit or more; optionally an
    exponent mark, a sign and one digit or more. *)
Definition scan_int (s : string) : option (string * string) :=
  match s with
  | String "0" r => Some ("0", r)
  | _ =>
      let (d, r) := span_digits s in
      if nonempty d then Some (d, r) else None
  end.

Definition scan_frac (s : string) : option (string * string) :=
  match s with
  | String "." r =>
      let (d, r') := span_digits r in
      if nonempty d then Some (String "." d, r') else None
  | _ => Some ("", s)
  end.

Definition scan_exp (s : string) : option (string * string) :=
  let digits (mark r : string) :=
    let (d, r') := span_digits r in
    if nonempty d then Some ((mark ++ d)%string, r') else None in
  let signed (mark r : string) :=
    match r with
    | String "+" r' => digits (mark ++ "+")%string r'
    | String "-" r' => digits (mark ++ "-")%string r'
    | _ => digits mark r
    end in
  match s with
  | String "e" r => signed "e" r
  | String "E" r => signed "E" r
  | _ => Some ("", s)
  end.

Definition scan_number (s : string) : option (string * string) :=
  let (sign, s1) :=
    match s with
    | String "-" r => ("-", r)
    | _ => ("", s)
    end in
  match scan_int s1 with
  | None => None
  | Some (i, s2) =>
      match scan_frac s2 with
      | None => None
      | Some (f, s3) =>
          match scan_exp s3 with
          | None => None
          | Some (x, s4) => Some ((sign ++ i ++ f ++ x)%string, s4)
          end
      end
  end.

(** Members of an object literal become properties one by one, so that a
    repeated key keeps its first place and its last value. *)
Definition build_object (members : list (string * json)) : json :=
  JObj (fold_left (fun props kv => set_prop (fst kv) (snd kv) props) members []).

(** Recursive descent.  [fuel] bounds the number of nested calls; each call
    consumes at least one character, so the length of the text is enough
    (see [parse]). *)
Fixpoint parse_value (fuel : nat) (s : string) {struct fuel}
  : option (json * string) :=
  match fuel with
  | O => None
  | S fuel' =>
      match skip_ws s with
      | String "n" (String "u" (String "l" (String "l" r))) => Some (JNull, r)
      | String "t" (String "r" (String "u" (String "e" r))) =>
          Some (JBool true, r)
      | String "f" (String "a" (String "l" (String "s" (String "e" r)))) =>
          Some (JBool false, r)
      | String "034" r =>
          match parse_chars r with
          | Some (str, r') => Some (JStr str, r')
          | None => None
          end
      | String "[" r =>
          match skip_ws r with
          | String "]" r' => Some (JArr [], r')
          | _ =>
              match parse_elements fuel' r with
              | Some (items, r') => Some (JArr items, r')
              | None => None
              end
          end
      | String "{" r =>
          match skip_ws r with
          | String "}" r' => Some (JObj [], r')
          | _ =>
              match parse_members fuel' r with
              | Some (members, r') => Some (build_object members, r')
              | None => None
              end
          end
      | s' =>
          match scan_number s' with
          | Some (lit, r) => Some (JNum lit, r)
          | None => None
          end
      end
  end

with parse_elements (fuel : nat) (s : string) {struct fuel}
  : option (list json * string) :=
  match fuel with
  | O => None
  | S fuel' =>
      match parse_value fuel' s with
      | None => None
      | Some (v, r) =>
          match skip_ws r with
          | String "," r' =>
              match parse_elements fuel' r' with
              | Some (items, r'') => Some (v :: items, r'')
              | None => None
              end
          | String "]" r' => Some ([v], r')
          | _ => None
          end
      end
  end

with parse_members (fuel : nat) (s : string) {struct fuel}
  : option (list (string * json) * string) :=
  match fuel with
  | O => None
  | S fuel' =>
      match skip_ws s with
      | String "034" r =>
          match parse_chars r with
          | None => None
          | Some (k, r1) =>
              match skip_ws r1 with
              | String ":" r2 =>
                  match parse_value fuel' r2 with
                  | None => None
                  | Some (v, r3) =>
                      match skip_ws r3 with
                      | String "," r4 =>
                          match parse_members fuel' r4 with
                          | Some (members, r5) => Some ((k, v) :: members, r5)
                          | None => None
                          end
                      | String "}" r4 => Some ([(k, v)], r4)
                      | _ => None
                      end
                  end
              | _ => None
              end
          end
      | _ => None
      end
  end.

(** [JSON.parse]: one value, surrounded by optional white space and nothing
    else; [None] stands for the [SyntaxError]. *)
Definition parse (s : string) : option json :=
  match parse_value (S (String.length s)) s with
  | Some (v, rest) =>
      match skip_ws rest with
      | EmptyString => Some v
      | _ => None
      end
  | None => None
  end.

End JSON.

Import JSON.

(** ** JavaScript values as the handlers use them *)

(** The errors a promise of the service can be rejected with. *)
Inductive error : Type :=
| ENOENT                  (* readFile: the store file does not exist *)
| EACCES                  (* writeFile: the store file cannot be written *)
| SyntaxError             (* JSON.parse *)
| TypeError               (* a property of null, or a call of a missing method *)
| ERR_HTTP_HEADERS_SENT   (* a header set after the response was finished *)
| NotModelled.            (* see [array_like_length] *)

(** [v.k] for the keys the handlers read, [name] and [text], neither of which
    is a property of a JSON primitive or array: [inl] is the [TypeError] of a
    property read on [null], [inr None] is [undefined]. *)
Fixpoint lookup (k : string) (props : list (string * json)) : option json :=
  match props with
  | [] => None
  | (k', v) :: rest => if String.eqb k' k then Some v else lookup k rest
  end.

Definition get_prop (v : json) (k : string) : error + option json :=
  match v with
  | JNull => inl TypeError
  | JObj props => inr (lookup k props)
  | _ => inr None
  end.

(** [x === s] for a string [s]. *)
Definition strict_equal (x : option json) (s : string) : bool :=
  match x with
  | Some (JStr s') => String.eqb s' s
  | _ => false
  end.

(** [el.name === name], the test of every scan. *)
Definition name_is (name : string) (el : json) : error + bool :=
  match get_prop el "name" with
  | inl e => inl e
  | inr x => inr (strict_equal x name)
  end.

(** A number literal denotes zero when its mantissa has no digit but 0. *)
Fixpoint zero_literal (lit : string) : bool :=
  match lit with
  | EmptyString => true
  | String c r =>
      if Ascii.eqb c "e" || Ascii.eqb c "E" then true
      else if Ascii.eqb c "-" || Ascii.eqb c "0" || Ascii.eqb c "." then
        zero_literal r
      else false
  end.

(** [if (v)] for a parsed value. *)
Definition truthy (v : json) : bool :=
  match v with
  | JNull => false
  | JBool b => b
  | JNum lit => negb (zero_literal lit)
  | JStr s => nonempty s
  | JArr _ | JObj _ => true
  end.

(** [el.text = v].  Only an object stores the property. *)
Definition assign_text (v : json) (el : json) : json :=
  match el with
  | JObj props => JObj (set_prop "text" v props)
  | _ => el
  end.

(** The methods of [Array.prototype] the handlers call exist on arrays only:
    on any other parsed value the call is a [TypeError]. *)
Definition as_array (v : json) : error + list json :=
  match v with
  | JArr items => inr items
  | _ => inl TypeError
  end.

(** [notes.find(p)].  The result is the array's own element, not a copy:
    the index is returned with it, so that an assignment to the result can be
    carried out on the array. *)
Fixpoint array_find (p : json -> error + bool) (l : list json)
  : error + option (nat * json) :=
  match l with
  | [] => inr None
  | x :: rest =>
      match p x with
      | inl e => inl e
      | inr true => inr (Some (0, x))
      | inr false =>
          match array_find p rest with
          | inr (Some (i, y)) => inr (Some (S i, y))
          | o => o
          end
      end
  end.

(** [notes.some(p)]. *)
Fixpoint array_some (p : json -> error + bool) (l : list json) : error + bool :=
  match l with
  | [] => inr false
  | x :: rest =>
      match p x with
      | inl e => inl e
      | inr true => inr true
      | inr false => array_some p rest
      end
  end.

(** [notes.filter(el => !p(el))]. *)
Fixpoint array_reject (p : json -> error + bool) (l : list json)
  : error + list json :=
  match l with
  | [] => inr []
  | x :: rest =>
      match p x with
      | inl e => inl e
      | inr b =>
          match array_reject p rest with
          | inl e => inl e
          | inr kept => inr (if b then kept else x :: kept)
          end
      end
  end.

(** [l[i] = f(l[i])] for an index inside the array. *)
Fixpoint update_at (i : nat) (f : json -> json) (l : list json) : list json :=
  match l, i with
  | [], _ => []
  | x :: rest, O => f x :: rest
  | x :: rest, S i' => x :: update_at i' f rest
  end.

(** ** The world of one request *)

Inductive payload : Type :=
| Value (v : json)          (* res.send(value) *)
| Buffer (bytes : string).  (* res.send(buffer): the bytes as they are *)

(** What one call of [res.send] or [res.end] finishes the response with:
    the status and the content type set before it, and the body ([None] for
    [res.end()] and for [res.send(undefined)]). *)
Record response : Type := mkResponse {
  status : nat;
  content_type : option string;
  body : option payload
}.

Inductive event : Type :=
| Wrote (data : string)     (* a writeFile promise was fulfilled *)
| WriteFailed               (* a writeFile promise was rejected *)
| Responded (r : response). (* res.send or res.end was called *)

(** The store file: its content ([None] when it does not exist) and whether
    the process may write it. *)
Record disk : Type := mkDisk {
  cache : option string;
  writable : bool
}.

Record world : Type := mkWorld {
  fs : disk;
  statusCode : nat;             (* res.statusCode *)
  contentType : option string;  (* what res.type was called with *)
  pending : list string;        (* writes started and not awaited *)
  trace : list event            (* oldest first *)
}.

(** ** Promises *)

Inductive settled (A : Type) : Type :=
| Fulfilled (a : A)
| Rejected (e : error).
Arguments Fulfilled {A} a.
Arguments Rejected {A} e.

Definition promise (A : Type) : Type := world -> settled A * world.

Definition ret {A : Type} (a : A) : promise A := fun w => (Fulfilled a, w).

(** [p.then(k)] *)
Definition bind {A B : Type} (p : promise A) (k : A -> promise B) : promise B :=
  fun w =>
    match p w with
    | (Fulfilled a, w') => k a w'
    | (Rejected e, w') => (Rejected e, w')
    end.

(** [p.catch(h)] *)
Definition catch {A : Type} (p : promise A) (h : error -> promise A) : promise A :=
  fun w =>
    match p w with
    | (Rejected e, w') => h e w'
    | r => r
    end.

(** A synchronous step that may throw. *)
Definition sync {A : Type} (r : error + A) : promise A :=
  fun w =>
    match r with
    | inl e => (Rejected e, w)
    | inr a => (Fulfilled a, w)
    end.

Declare Scope promise_scope.
Delimit Scope promise_scope with promise.
Notation "x <- p ;; k" := (bind p (fun x => k))
  (at level 61, p at next level, right associativity) : promise_scope.
Notation "p ;; k" := (bind p (fun _ => k))
  (at level 61, right associativity) : promise_scope.
Open Scope promise_scope.

Definition log (e : event) (w : world) : world :=
  mkWorld (fs w) (statusCode w) (contentType w) (pending w) (trace w ++ [e]).

(** [fs.promises.readFile(options.cache)] *)
Definition readFile : promise string :=
  fun w =>
    match cache (fs w) with
    | Some content => (Fulfilled content, w)
    | None => (Rejected ENOENT, w)
    end.

(** [fs.promises.writeFile(options.cache, data)], awaited. *)
Definition writeFile (data : string) : promise unit :=
  fun w =>
    if writable (fs w) then
      (Fulfilled tt,
       log (Wrote data)
         (mkWorld (mkDisk (Some data) true) (statusCode w) (contentType w)
            (pending w) (trace w)))
    else (Rejected EACCES, log WriteFailed w).

(** [fs.promises.writeFile(options.cache, data)] with the promise dropped:
    the write is under way when the callback goes on. *)
Definition start_write (data : string) : promise unit :=
  fun w =>
    (Fulfilled tt,
     mkWorld (fs w) (statusCode w) (contentType w) (pending w ++ [data])
       (trace w)).

(** [JSON.parse(json_notes)] *)
Definition JSON_parse (text : string) : promise json :=
  sync (match parse text with
       | Some v => inr v
       | None => inl SyntaxError
       end).

Definition is_response (e : event) : bool :=
  match e with
  | Responded _ => true
  | _ => false
  end.

Definition headersSent (w : world) : bool := existsb is_response (trace w).

(** [res.status(code)] *)
Definition res_status (code : nat) : promise unit :=
  fun w =>
    (Fulfilled tt,
     mkWorld (fs w) code (contentType w) (pending w) (trace w)).

(** [res.type(t)]: sets a header, which throws once the response is
    finished. *)
Definition res_type (t : string) : promise unit :=
  fun w =>
    if headersSent w then (Rejected ERR_HTTP_HEADERS_SENT, w)
    else
      (Fulfilled tt,
       mkWorld (fs w) (statusCode w) (Some t) (pending w) (trace w)).

(** [res.send(x)]: sets headers too. *)
Definition res_send (x : option payload) : promise unit :=
  fun w =>
    if headersSent w then (Rejected ERR_HTTP_HEADERS_SENT, w)
    else
      (Fulfilled tt,
       log (Responded (mkResponse (statusCode w) (contentType w) x)) w).

(** [res.end()]: a second call is not an error; the client has the first
    response by then. *)
Definition res_end : promise unit :=
  fun w =>
    (Fulfilled tt,
     log (Responded (mkResponse (statusCode w) (contentType w) None)) w).

(** Writes that were not awaited settle once the callback has returned, in
    the order they were started. *)
Fixpoint settle_writes (writes : list string) (w : world) : world :=
  match writes with
  | [] => w
  | data :: rest => settle_writes rest (snd (writeFile data w))
  end.

(** One request served alone, from the arrival to the last effect. *)
Definition run (handler : promise unit) (d : disk) : settled unit * world :=
  let (r, w) := handler (mkWorld d 200 None [] []) in
  (r, settle_writes (pending w)
        (mkWorld (fs w) (statusCode w) (contentType w) [] (trace w))).

(** ** The requests *)

Inductive request : Type :=
| ListNotes                              (* GET /notes *)
| GetNote (name : string)                (* GET /notes/:name *)
| PutNote (name : string) (body : json)  (* PUT /notes/:name, req.body *)
| PostWrite (note_name note : string)    (* POST /write, the form fields *)
| DeleteNote (name : string).            (* DELETE /notes/:name *)

Definition new_note (note_name note : string) : json :=
  JObj [("name", JStr note_name); ("text", JStr note)].

(** ** Variant 2: rejections handled, writes awaited *)

Module V2.

Definition internal_error (_ : error) : promise unit :=
  res_status 500 ;;
  res_send (Some (Value (JStr "Internal server error"))).

Definition list_notes : promise unit :=
  catch
    (notes <- readFile ;;
     res_status 200 ;; res_type "json" ;; res_send (Some (Buffer notes)))
    internal_error.

Definition not_found : promise unit := res_status 404 ;; res_end.

Definition get_note (name : string) : promise unit :=
  catch
    (json_notes <- readFile ;;
     parsed <- JSON_parse json_notes ;;
     notes <- sync (as_array parsed) ;;
     note <- sync (array_find (name_is name) notes) ;;
     match note with
     | Some (_, el) =>
         if truthy el then
           res_status 200 ;; res_type "text" ;;
           text <- sync (get_prop el "text") ;;
           res_send (option_map Value text)
         else not_found
     | None => not_found
     end)
    internal_error.

Definition put_note (name : string) (body : json) : promise unit :=
  catch
    (json_notes <- readFile ;;
     parsed <- JSON_parse json_notes ;;
     notes <- sync (as_array parsed) ;;
     note <- sync (array_find (name_is name) notes) ;;
     match note with
     | Some (i, el) =>
         if truthy el then
           let notes' := update_at i (assign_text body) notes in
           writeFile (stringify (JArr notes')) ;;
           res_status 201 ;; res_end
         else not_found
     | None => not_found
     end)
    internal_error.

Definition post_write (note_name note : string) : promise unit :=
  catch
    (json_notes <- readFile ;;
     parsed <- JSON_parse json_notes ;;
     notes <- sync (as_array parsed) ;;
     exists_ <- sync (array_some (name_is note_name) notes) ;;
     if exists_ : bool then res_status 400 ;; res_end
     else
       let notes' := notes ++ [new_note note_name note] in
       writeFile (stringify (JArr notes')) ;;
       res_status 201 ;; res_end)
    internal_error.

Definition delete_note (name : string) : promise unit :=
  catch
    (json_notes <- readFile ;;
     parsed <- JSON_parse json_notes ;;
     notes <- sync (as_array parsed) ;;
     filteredNotes <- sync (array_reject (name_is name) notes) ;;
     if negb (Nat.eqb (length notes) (length filteredNotes)) then
       writeFile (stringify (JArr filteredNotes)) ;;
       res_status 200 ;; res_end
     else not_found)
    internal_error.

Definition handler (r : request) : promise unit :=
  match r with
  | ListNotes => list_notes
  | GetNote name => get_note name
  | PutNote name body => put_note name body
  | PostWrite note_name note => post_write note_name note
  | DeleteNote name => delete_note name
  end.

End V2.

(** ** Variant 1 (Lab_5.js): no rejection handler, writes not awaited

    The variables [notes] and [new_notes] of this variant are globals; every
    callback assigns them before it reads them, so that under the sequential
    execution modelled here they behave as locals. *)

Module V1.

Definition list_notes : promise unit :=
  notes <- readFile ;;
  res_status 200 ;; res_type "json" ;; res_send (Some (Buffer notes)).

(** [notes.map(el => { if (el.name === name) res...send(el.text) })] *)
Fixpoint send_matches (name : string) (l : list json) : promise unit :=
  match l with
  | [] => ret tt
  | el :: rest =>
      found <- sync (name_is name el) ;;
      (if found : bool then
         res_status 200 ;; res_type "text" ;;
         text <- sync (get_prop el "text") ;;
         res_send (option_map Value text)
       else ret tt) ;;
      send_matches name rest
  end.

Definition get_note (name : string) : promise unit :=
  json_notes <- readFile ;;
  parsed <- JSON_parse json_notes ;;
  notes <- sync (as_array parsed) ;;
  send_matches name notes ;;
  res_status 404 ;; res_end.

(** The elements that [for (let i = 0; i < notes.length; i++)] visits.  A
    value without a length is passed over.  A string has one, but its
    elements are one-character strings without a name, on which the body of
    the loop does nothing: they are passed over as well.  An object with a
    length of its own would be walked like an array; such a store is not
    modelled. *)
Definition array_like_length (notes : json) : error + list json :=
  match notes with
  | JArr items => inr items
  | JNull => inl TypeError
  | JObj props =>
      match lookup "length" props with
      | None => inr []
      | Some _ => inl NotModelled
      end
  | _ => inr []
  end.

(** The loop of the update, at index [length visited]: the array is
    [visited ++ todo]. *)
Fixpoint update_loop (name : string) (body : json) (visited todo : list json)
  : promise unit :=
  match todo with
  | [] => ret tt
  | el :: rest =>
      found <- sync (name_is name el) ;;
      if found : bool then
        let el' := assign_text body el in
        start_write (stringify (JArr (visited ++ el' :: rest))) ;;
        res_status 201 ;; res_end ;;
        update_loop name body (visited ++ [el']) rest
      else update_loop name body (visited ++ [el]) rest
  end.

Definition put_note (name : string) (body : json) : promise unit :=
  json_notes <- readFile ;;
  parsed <- JSON_parse json_notes ;;
  notes <- sync (array_like_length parsed) ;;
  update_loop name body [] notes ;;
  res_status 404 ;; res_end.

(** [notes.map(element => { if (element.name === name) flag = true })] *)
Fixpoint flag_matches (name : string) (flag : bool) (l : list json)
  : error + bool :=
  match l with
  | [] => inr flag
  | el :: rest =>
      match name_is name el with
      | inl e => inl e
      | inr found => flag_matches name (if found then true else flag) rest
      end
  end.

Definition post_write (note_name note : string) : promise unit :=
  json_notes <- readFile ;;
  parsed <- JSON_parse json_notes ;;
  notes <- sync (as_array parsed) ;;
  flag <- sync (flag_matches note_name false notes) ;;
  if flag : bool then res_status 400 ;; res_end
  else
    let notes' := notes ++ [new_note note_name note] in
    start_write (stringify (JArr notes')) ;;
    res_status 201 ;; res_end.

(** [notes.forEach(el => { if (el.name === name) flag = true
                           else new_notes.push(el) })] *)
Fixpoint split_matches (name : string) (flag : bool) (new_notes : list json)
  (l : list json) : error + (bool * list json) :=
  match l with
  | [] => inr (flag, new_notes)
  | el :: rest =>
      match name_is name el with
      | inl e => inl e
      | inr true => split_matches name true new_notes rest
      | inr false => split_matches name flag (new_notes ++ [el]) rest
      end
  end.

Definition delete_note (name : string) : promise unit :=
  json_notes <- readFile ;;
  parsed <- JSON_parse json_notes ;;
  notes <- sync (as_array parsed) ;;
  r <- sync (split_matches name false [] notes) ;;
  let (flag, new_notes) := r : bool * list json in
  if flag then
    start_write (stringify (JArr new_notes)) ;;
    res_status 200 ;; res_end
  else res_status 404 ;; res_end.

Definition handler (r : request) : promise unit :=
  match r with
  | ListNotes => list_notes
  | GetNote name => get_note name
  | PutNote name body => put_note name body
  | PostWrite note_name note => post_write note_name note
  | DeleteNote name => delete_note name
  end.

End V1.

(** ** The server *)

Inductive variant : Type := Lab5 | Documented.

Definition handler (v : variant) : request -> promise unit :=
  match v with
  | Lab5 => V1.handler
  | Documented => V2.handler
  end.

(** One request served alone. *)
Definition serve (v : variant) (r : request) (d : disk) : settled unit * world :=
  run (handler v r) d.

(** The calls that finished the response, oldest first; the client receives
    the first. *)
Fixpoint responses (t : list event) : list response :=
  match t with
  | [] => []
  | Responded r :: rest => r :: responses rest
  | _ :: rest => responses rest
  end.

Definition reply (o : settled unit * world) : option response :=
  hd_error (responses (trace (snd o))).

Definition disk_after (o : settled unit * world) : disk := fs (snd o).

(** Requests served one after the other, each to its last effect before the
    next arrives. *)
Fixpoint serve_all (v : variant) (rs : list request) (d : disk) : disk :=
  match rs with
  | [] => d
  | r :: rest => serve_all v rest (disk_after (serve v r d))
  end.

(** What the client receives for each request of a sequence. *)
Fixpoint transcript (v : variant) (rs : list request) (d : disk)
  : list (option response) :=
  match rs with
  | [] => []
  | r :: rest =>
      reply (serve v r d) :: transcript v rest (disk_after (serve v r d))
  end.

(** The start of the process: the store file is created, holding
    [JSON.stringify([])], when it does not exist. *)
Definition bootstrap (d : disk) : disk :=
  match cache d with
  | Some _ => d
  | None => disk_after (run (start_write (stringify (JArr []))) d)
  end.

(** ** Routing

    The requests [GetNote n], [PutNote n b] and [DeleteNote n] stand for the
    path [/notes/] followed by the encoded name.  The route [/notes/:name]
    matches a name of one character at least.  With the empty name the path
    is [/notes/]: for GET it matches the route [/notes] of the list endpoint
    (Express takes a trailing slash as optional); for PUT and DELETE no
    route matches, no handler runs and Express answers 404 with a page of
    its own. *)

(** The page of Express's final handler for a request no route matches. *)
Definition not_found_page (method : string) : string :=
  let nl := String "010" "" in
  ("<!DOCTYPE html>" ++ nl ++ js "<html lang='en'>" ++ nl
   ++ "<head>" ++ nl ++ js "<meta charset='utf-8'>" ++ nl
   ++ "<title>Error</title>" ++ nl ++ "</head>" ++ nl
   ++ "<body>" ++ nl ++ "<pre>Cannot " ++ method ++ " /notes/</pre>" ++ nl
   ++ "</body>" ++ nl ++ "</html>" ++ nl)%string.

Definition no_route (method : string) : promise unit :=
  res_status 404 ;; res_type "html" ;;
  res_send (Some (Buffer (not_found_page method))).

(** What Express runs for a request. *)
Definition routed (v : variant) (r : request) : promise unit :=
  match r with
  | GetNote EmptyString => handler v ListNotes
  | PutNote EmptyString _ => no_route "PUT"
  | DeleteNote EmptyString => no_route "DELETE"
  | _ => handler v r
  end.

(** One request received and served alone. *)
Definition receive (v : variant) (r : request) (d : disk)
  : settled unit * world :=
  run (routed v r) d.

(** Requests received one after the other. *)
Fixpoint receive_all (v : variant) (rs : list request) (d : disk) : disk :=
  match rs with
  | [] => d
  | r :: rest => receive_all v rest (disk_after (receive v r d))
  end.

(** ** Stores of notes *)

Record Note : Type := mkNote {
  name : string;
  text : string
}.

Definition note_value (x : Note) : json := new_note (name x) (text x).

Definition store_value (ns : list Note) : json := JArr (map note_value ns).

Definition names (ns : list Note) : list string := map name ns.

(** The file exists and its content parses to the notes [ns], in their
    order. *)
Definition stored (d : disk) (ns : list Note) : Prop :=
  exists content, cache d = Some content /\ parse content = Some (store_value ns).

(** The scans the handlers make, on notes. *)

Definition named (n : string) (x : Note) : bool := String.eqb (name x) n.

(** The first note of a name, with its index. *)
Fixpoint first_match (n : string) (ns : list Note) : option (nat * Note) :=
  match ns with
  | [] => None
  | x :: rest =>
      if named n x then Some (0, x)
      else match first_match n rest with
           | Some (i, y) => Some (S i, y)
           | None => None
           end
  end.

(** The text of the first note of a name replaced, every note in its
    place. *)
Fixpoint replace_text (n t : string) (ns : list Note) : list Note :=
  match ns with
  | [] => []
  | x :: rest =>
      if named n x then mkNote (name x) t :: rest
      else x :: replace_text n t rest
  end.

(** The notes of another name, in their order. *)
Definition without (n : string) (ns : list Note) : list Note :=
  filter (fun x => negb (named n x)) ns.

(** The responses of the service. *)

Definition error_response : response :=
  mkResponse 500 None (Some (Value (JStr "Internal server error"))).

Definition found_response (x : Note) : response :=
  mkResponse 200 (Some "text") (Some (Value (JStr (text x)))).

Definition empty_response (code : nat) : response := mkResponse code None None.

(** The content of the file is not the text of a JSON array: it is not JSON
    at all, or it is the text of another JSON value. *)
Definition broken (content : string) : bool :=
  match parse content with
  | Some (JArr _) => false
  | _ => true
  end.

(** ** Sequences of operations *)

Inductive operation : Type :=
| Create (n t : string)
| Update (n t : string)
| Delete (n : string).

Definition request_of (o : operation) : request :=
  match o with
  | Create n t => PostWrite n t
  | Update n t => PutNote n (JStr t)
  | Delete n => DeleteNote n
  end.

(** The effect of one operation on the list of notes, in the words of the
    specification: a create of a new name appends the note at the end (a
    create of a name in use is refused), an update replaces the text of the
    note of that name where it stands, a delete removes the notes of that
    name and keeps the others in their order. *)
Definition effect (ns : list Note) (o : operation) : list Note :=
  match o with
  | Create n t => if existsb (named n) ns then ns else ns ++ [mkNote n t]
  | Update n t => replace_text n t ns
  | Delete n => without n ns
  end.

Definition effects (os : list operation) (ns : list Note) : list Note :=
  fold_left effect os ns.

(** The request of the operation reaches a handler: an update or a delete
    does when its name is not empty, a create always does. *)
Definition reaches (o : operation) : bool :=
  match o with
  | Create _ _ => true
  | Update n _ | Delete n => nonempty n
  end.

(** The effect of an operation as the service carries it out: that of
    [effect] when the request reaches a handler, none otherwise. *)
Definition routed_effect (ns : list Note) (o : operation) : list Note :=
  if reaches o then effect ns o else ns.

Definition routed_effects (os : list operation) (ns : list Note) : list Note :=
  fold_left routed_effect os ns.

(** The text a fetch of the name finds: that of the first note of the
    name. *)
Definition fetched (n : string) (ns : list Note) : option string :=
  match first_match n ns with
  | Some (_, x) => Some (text x)
  | None => None
  end.

(** The response of a fetch that finds the text [t], or finds none. *)
Definition fetch_response (t : option string) : response :=
  match t with
  | Some t => mkResponse 200 (Some "text") (Some (Value (JStr t)))
  | None => empty_response 404
  end.

(** The name an operation is about. *)
Definition target (o : operation) : string :=
  match o with
  | Create n _ | Update n _ | Delete n => n
  end.

(** The operation finds the store as it needs it, so that its handler
    writes: a create of a name no note has, an update or a delete of a name
    some note has. *)
Definition applies (ns : list Note) (o : operation) : bool :=
  match o with
  | Create n _ => negb (existsb (named n) ns)
  | Update n _ | Delete n => existsb (named n) ns
  end.

(** ** The upload form

    [GET /UploadForm.html] reads the file [UploadForm.html] of the working
    directory, not the store: [form] is the content of that file when the
    request is served, [None] when the file cannot be read. *)
Definition readFormFile (form : option string) : promise string :=
  fun w =>
    match form with
    | Some content => (Fulfilled content, w)
    | None => (Rejected ENOENT, w)
    end.

Definition upload_form (v : variant) (file : option string) : promise unit :=
  match v with
  | Lab5 =>
      form <- readFormFile file ;;
      res_status 200 ;; res_type "html" ;; res_send (Some (Buffer form))
  | Documented =>
      catch
        (form <- readFormFile file ;;
         res_status 200 ;; res_type "html" ;; res_send (Some (Buffer form)))
        V2.internal_error
  end.

(** * Properties *)

(** ** The model on concrete inputs *)

Example parse_store_text :
  parse (js "  [ {'name' : 'a', 'text' : 'hi\n\u0041'} ,{'text':'', 'name':'b'}] ")
  = Some (JArr [note_value (mkNote "a" (String "h" (String "i" (String "010" "A"))));
                JObj [("text", JStr ""); ("name", JStr "b")]]).
Proof. vm_compute. reflexivity. Qed.

Example parse_repeated_key :
  parse (js "{'a':1,'b':[true,null],'a':-2.5e3}")
  = Some (JObj [("a", JNum "-2.5e3"); ("b", JArr [JBool true; JNull])]).
Proof. vm_compute. reflexivity. Qed.

Example parse_rejects :
  map parse ["oops"; ""; "[1,]"; "01"; "1."; "[1] x"; js "{'a':1,}"; js "'a";
             js "['\x']"; "nul"]
  = [None; None; None; None; None; None; None; None; None; None].
Proof. vm_compute. reflexivity. Qed.

Example stringify_escapes :
  stringify (JArr [JStr (String "034" (String "\" (String "010" (String "001" "/"))));
                   JObj [("k", JNull)]; JArr []])
  = js "['\'\\\n\u0001/',{'k':null},[]]".
Proof. vm_compute. reflexivity. Qed.

(** The scenario of the specification: create, fetch, update, fetch, delete,
    fetch, from the store the process creates at its start. *)
Example end_to_end (v : variant) :
  transcript v
    [PostWrite "a" "hello"; GetNote "a"; PutNote "a" (JStr "world");
     GetNote "a"; DeleteNote "a"; GetNote "a"]
    (bootstrap (mkDisk None true))
  = [Some (empty_response 201); Some (found_response (mkNote "a" "hello"));
     Some (empty_response 201); Some (found_response (mkNote "a" "world"));
     Some (empty_response 200); Some (empty_response 404)].
Proof. destruct v; vm_compute; reflexivity. Qed.

(** ** The text format round-trips stores *)

Lemma append_assoc (a b c : string) : ((a ++ b) ++ c = a ++ (b ++ c))%string.
Proof. induction a as [|x a IH]; simpl; [reflexivity | now rewrite IH]. Qed.

Lemma length_append (a b : string) :
  String.length (a ++ b) = String.length a + String.length b.
Proof. induction a as [|x a IH]; simpl; [reflexivity | now rewrite IH]. Qed.

Lemma parse_chars_escape_char (c : ascii) (r : string) :
  parse_chars (escape_char c ++ r) = push (String c "") (parse_chars r).
Proof.
  destruct c as [[] [] [] [] [] [] [] []]; reflexivity.
Qed.

Lemma parse_chars_escape (s rest : string) :
  parse_chars (escape s ++ String "034" rest) = Some (s, rest).
Proof.
  induction s as [|c s IH].
  - reflexivity.
  - cbn [escape]. rewrite append_assoc, parse_chars_escape_char, IH.
    reflexivity.
Qed.

(** One step of the parser on a text whose first character is known. *)
Lemma parse_value_quote (fuel : nat) (r : string) :
  parse_value (S fuel) (String "034" r)
  = match parse_chars r with
    | Some (str, r') => Some (JStr str, r')
    | None => None
    end.
Proof. reflexivity. Qed.

Lemma parse_value_brace (fuel : nat) (k r : string) :
  parse_value (S fuel) (String "{" (quote k ++ r))
  = match parse_members fuel (quote k ++ r) with
    | Some (members, r') => Some (build_object members, r')
    | None => None
    end.
Proof. reflexivity. Qed.

Lemma parse_value_bracket (fuel : nat) (r : string) :
  parse_value (S fuel) (String "[" (String "{" r))
  = match parse_elements fuel (String "{" r) with
    | Some (items, r') => Some (JArr items, r')
    | None => None
    end.
Proof. reflexivity. Qed.

Lemma parse_members_quote (fuel : nat) (r : string) :
  parse_members (S fuel) (String "034" r)
  = match parse_chars r with
    | None => None
    | Some (k, r1) =>
        match skip_ws r1 with
        | String ":" r2 =>
            match parse_value fuel r2 with
            | None => None
            | Some (v, r3) =>
                match skip_ws r3 with
                | String "," r4 =>
                    match parse_members fuel r4 with
                    | Some (members, r5) => Some ((k, v) :: members, r5)
                    | None => None
                    end
                | String "}" r4 => Some ([(k, v)], r4)
                | _ => None
                end
            end
        | _ => None
        end
    end.
Proof. reflexivity. Qed.

Lemma parse_elements_step (fuel : nat) (s : string) :
  parse_elements (S fuel) s
  = match parse_value fuel s with
    | None => None
    | Some (v, r) =>
        match skip_ws r with
        | String "," r' =>
            match parse_elements fuel r' with
            | Some (items, r'') => Some (v :: items, r'')
            | None => None
            end
        | String "]" r' => Some ([v], r')
        | _ => None
        end
    end.
Proof. reflexivity. Qed.

Lemma parse_value_string (fuel : nat) (s rest : string) :
  parse_value (S fuel) (quote s ++ rest) = Some (JStr s, rest).
Proof.
  unfold quote. cbn [String.append].
  rewrite append_assoc, parse_value_quote. cbn [String.append].
  now rewrite parse_chars_escape.
Qed.

(** A property whose value is a string, followed by [next] and more
    text. *)
Lemma parse_members_string (fuel : nat) (k s : string) (next : ascii)
  (rest : string) :
  parse_members (S (S fuel))
    (quote k ++ String ":" (quote s ++ String next rest))
  = match skip_ws (String next rest) with
    | String "," r4 =>
        match parse_members (S fuel) r4 with
        | Some (members, r5) => Some ((k, JStr s) :: members, r5)
        | None => None
        end
    | String "}" r4 => Some ([(k, JStr s)], r4)
    | _ => None
    end.
Proof.
  unfold quote at 1. cbn [String.append].
  rewrite append_assoc, parse_members_quote. cbn [String.append].
  rewrite parse_chars_escape.
  change (skip_ws (String ":" ?x)) with (String ":" x).
  cbv beta iota.
  now rewrite parse_value_string.
Qed.

(** The text of one note, followed by [rest]. *)
Lemma stringify_note (x : Note) (rest : string) :
  (stringify (note_value x) ++ rest)%string
  = String "{" (quote "name" ++ String ":" (quote (name x) ++ String ","
      (quote "text" ++ String ":" (quote (text x) ++ String "}" rest)))).
Proof.
  cbn [note_value new_note stringify map join].
  cbn [String.append].
  repeat (rewrite !append_assoc; cbn [String.append]).
  reflexivity.
Qed.

Lemma parse_value_note (fuel : nat) (x : Note) (rest : string) :
  parse_value (4 + fuel) (stringify (note_value x) ++ rest)
  = Some (note_value x, rest).
Proof.
  rewrite stringify_note.
  change (4 + fuel) with (S (S (S (S fuel)))).
  rewrite parse_value_brace, parse_members_string.
  change (skip_ws (String "," ?r)) with (String "," r). cbv beta iota.
  rewrite parse_members_string.
  reflexivity.
Qed.

Lemma length_note (x : Note) : 4 <= String.length (stringify (note_value x)).
Proof. cbn. lia. Qed.

Lemma join_cons (sep x y : string) (l : list string) :
  join sep (x :: y :: l) = (x ++ sep ++ join sep (y :: l))%string.
Proof. reflexivity. Qed.

Lemma length_join_notes (x : Note) (ns : list Note) :
  4 + length ns
  <= String.length (join "," (map stringify (map note_value (x :: ns)))).
Proof.
  revert x. induction ns as [|y ns IH]; intro x.
  - apply length_note.
  - specialize (IH y). pose proof (length_note x) as Hx.
    cbn [map] in *. rewrite join_cons, !length_append.
    cbn [length]. lia.
Qed.

Lemma parse_elements_notes (ns : list Note) :
  forall (x : Note) (fuel : nat) (rest : string),
    parse_elements (5 + length ns + fuel)
      (join "," (map stringify (map note_value (x :: ns))) ++ String "]" rest)
    = Some (map note_value (x :: ns), rest).
Proof.
  induction ns as [|y ns IH]; intros x fuel rest.
  - cbn [map join length Nat.add].
    rewrite parse_elements_step.
    rewrite (parse_value_note fuel). reflexivity.
  - specialize (IH y fuel rest).
    cbn [map] in *. rewrite join_cons, !append_assoc.
    change (5 + length (y :: ns) + fuel) with (S (4 + (S (length ns + fuel)))).
    rewrite parse_elements_step, parse_value_note.
    change (skip_ws ("," ++ ?r)) with (String "," r). cbv beta iota.
    change (4 + S (length ns + fuel)) with (5 + length ns + fuel).
    now rewrite IH.
Qed.

Lemma join_notes_head (x : Note) (ns : list Note) (rest : string) :
  exists r,
    (join "," (map stringify (map note_value (x :: ns))) ++ rest)%string
    = String "{" r.
Proof.
  destruct ns as [|y ns]; cbn [map].
  - cbn [join]. rewrite stringify_note. eexists; reflexivity.
  - rewrite join_cons, append_assoc, stringify_note. eexists; reflexivity.
Qed.

(** [JSON.parse(JSON.stringify(notes))] gives the notes back. *)
Lemma parse_stringify_store (ns : list Note) :
  parse (stringify (store_value ns)) = Some (store_value ns).
Proof.
  destruct ns as [|x ns]; [reflexivity|].
  unfold parse, store_value.
  pose proof (length_join_notes x ns) as Hlen.
  cbn [stringify]. cbn [String.append String.length].
  rewrite length_append. cbn [String.length].
  set (items := map stringify (map note_value (x :: ns))) in *.
  set (fuel := S (String.length (join "," items) + 1)).
  destruct (join_notes_head x ns "]") as [r Hr]. fold items in Hr.
  rewrite Hr, parse_value_bracket, <- Hr.
  replace fuel with (5 + length ns + (fuel - 5 - length ns)) by (subst fuel; lia).
  subst items. rewrite parse_elements_notes. reflexivity.
Qed.

(** ** Scans of a store of notes *)

Lemma name_is_note (n : string) (x : Note) :
  name_is n (note_value x) = inr (named n x).
Proof. reflexivity. Qed.

Lemma array_some_notes (n : string) (ns : list Note) :
  array_some (name_is n) (map note_value ns) = inr (existsb (named n) ns).
Proof.
  induction ns as [|x ns IH]; [reflexivity|].
  cbn [map array_some existsb]. rewrite name_is_note.
  destruct (named n x); [reflexivity | exact IH].
Qed.

Lemma array_reject_notes (n : string) (ns : list Note) :
  array_reject (name_is n) (map note_value ns)
  = inr (map note_value (without n ns)).
Proof.
  induction ns as [|x ns IH]; [reflexivity|].
  cbn [map array_reject without filter]. rewrite name_is_note, IH.
  destruct (named n x); reflexivity.
Qed.

Lemma array_find_notes (n : string) (ns : list Note) :
  array_find (name_is n) (map note_value ns)
  = inr (match first_match n ns with
         | Some (i, x) => Some (i, note_value x)
         | None => None
         end).
Proof.
  induction ns as [|x ns IH]; [reflexivity|].
  cbn [map array_find first_match]. rewrite name_is_note.
  destruct (named n x); [reflexivity|].
  rewrite IH. destruct (first_match n ns) as [[i y]|]; reflexivity.
Qed.

Lemma update_at_first_match (n t : string) (ns : list Note) :
  forall i x,
    first_match n ns = Some (i, x) ->
    update_at i (assign_text (JStr t)) (map note_value ns)
    = map note_value (replace_text n t ns).
Proof.
  induction ns as [|y ns IH]; intros i x H; [discriminate|].
  cbn [first_match] in H. cbn [replace_text map].
  destruct (named n y).
  - injection H as <- <-. reflexivity.
  - destruct (first_match n ns) as [[j z]|]; [|discriminate].
    injection H as <- <-. cbn [update_at map]. f_equal. eapply IH; reflexivity.
Qed.

Lemma first_match_exists (n : string) (ns : list Note) :
  existsb (named n) ns
  = match first_match n ns with Some _ => true | None => false end.
Proof.
  induction ns as [|x ns IH]; [reflexivity|].
  cbn [existsb first_match]. destruct (named n x); [reflexivity|].
  rewrite IH. now destruct (first_match n ns) as [[i y]|].
Qed.

Lemma first_match_named (n : string) (ns : list Note) :
  forall i x, first_match n ns = Some (i, x) -> name x = n /\ In x ns.
Proof.
  induction ns as [|y ns IH]; intros i x H; [discriminate|].
  cbn [first_match] in H. destruct (named n y) eqn:E.
  - injection H as <- <-. apply String.eqb_eq in E. split; [exact E | now left].
  - destruct (first_match n ns) as [[j z]|]; [|discriminate].
    injection H as <- <-. destruct (IH j z eq_refl). split; [assumption | now right].
Qed.

Lemma existsb_named_In (n : string) (ns : list Note) :
  existsb (named n) ns = true <-> In n (names ns).
Proof.
  unfold names. rewrite existsb_exists, in_map_iff. unfold named.
  split; intros [x [H1 H2]]; exists x.
  - apply String.eqb_eq in H2. now split.
  - split; [assumption | now apply String.eqb_eq].
Qed.

Lemma not_named_notin (n : string) (ns : list Note) :
  existsb (named n) ns = false <-> ~ In n (names ns).
Proof.
  rewrite <- existsb_named_In. destruct (existsb (named n) ns); split; intros;
    congruence.
Qed.

Lemma without_length (n : string) (ns : list Note) :
  Nat.eqb (length ns) (length (without n ns)) = negb (existsb (named n) ns).
Proof.
  assert (Hle : forall l, length (without n l) <= length l).
  { induction l as [|x l IHl]; [cbn; lia|].
    unfold without in *. cbn [filter]. destruct (named n x); cbn; lia. }
  induction ns as [|x ns IH]; [reflexivity|].
  unfold without in *. cbn [filter existsb]. destruct (named n x); cbn [negb orb length].
  - apply Nat.eqb_neq. specialize (Hle ns). unfold without in Hle. lia.
  - exact IH.
Qed.

Lemma without_absent (n : string) (ns : list Note) :
  existsb (named n) ns = false -> without n ns = ns.
Proof.
  induction ns as [|x ns IH]; [reflexivity|].
  cbn [existsb]. unfold without in *. cbn [filter].
  destruct (named n x); [discriminate|]. cbn. intro H. now rewrite IH.
Qed.

Lemma without_notin (n : string) (ns : list Note) : ~ In n (names (without n ns)).
Proof.
  unfold names, without. rewrite in_map_iff. intros [x [H1 H2]].
  apply filter_In in H2 as [_ H2]. unfold named in H2.
  apply negb_true_iff, String.eqb_neq in H2. contradiction.
Qed.

(** ** What each handler does on a store of notes *)

(** The scans of variant 1 on notes. *)
Lemma flag_matches_notes (n : string) (ns : list Note) :
  forall flag,
    V1.flag_matches n flag (map note_value ns)
    = inr (flag || existsb (named n) ns).
Proof.
  induction ns as [|x ns IH]; intro flag.
  - cbn. now rewrite orb_false_r.
  - cbn [map V1.flag_matches existsb]. rewrite name_is_note, IH.
    destruct (named n x), flag; reflexivity.
Qed.

Lemma split_matches_notes (n : string) (ns : list Note) :
  forall flag kept,
    V1.split_matches n flag kept (map note_value ns)
    = inr (flag || existsb (named n) ns, kept ++ map note_value (without n ns)).
Proof.
  induction ns as [|x ns IH]; intros flag kept.
  - cbn. now rewrite orb_false_r, app_nil_r.
  - cbn [map V1.split_matches existsb without filter]. rewrite name_is_note.
    destruct (named n x); rewrite IH; cbn [negb map].
    + now rewrite orb_true_r.
    + now rewrite <- app_assoc.
Qed.

Lemma assign_text_note (t : string) (x : Note) :
  assign_text (JStr t) (note_value x) = note_value (mkNote (name x) t).
Proof. reflexivity. Qed.

Lemma update_loop_absent (n : string) (b : json) (todo : list Note) :
  forall visited w,
    existsb (named n) todo = false ->
    V1.update_loop n b visited (map note_value todo) w = (Fulfilled tt, w).
Proof.
  induction todo as [|x todo IH]; intros visited w H; [reflexivity|].
  cbn [existsb] in H. apply orb_false_iff in H as [Hx Hrest].
  cbn [map V1.update_loop]. unfold bind at 1, sync.
  rewrite name_is_note, Hx. now apply IH.
Qed.

Lemma update_loop_once (n t : string) (todo : list Note) :
  forall visited w,
    NoDup (names todo) ->
    existsb (named n) todo = true ->
    V1.update_loop n (JStr t) visited (map note_value todo) w
    = (Fulfilled tt,
       mkWorld (fs w) 201 (contentType w)
         (pending w
          ++ [stringify (JArr (visited ++ map note_value (replace_text n t todo)))])
         (trace w ++ [Responded (mkResponse 201 (contentType w) None)])).
Proof.
  induction todo as [|x todo IH]; intros visited w Hnd H; [discriminate|].
  cbn [names map] in Hnd. apply NoDup_cons_iff in Hnd as [Hx Hnd].
  cbn [existsb] in H.
  cbn [map V1.update_loop replace_text]. unfold bind at 1, sync.
  rewrite name_is_note. destruct (named n x) eqn:E.
  - apply String.eqb_eq in E. subst n.
    rewrite assign_text_note.
    unfold bind at 1, start_write. unfold bind at 1, res_status.
    unfold bind at 1, res_end, log. cbn [fs statusCode contentType pending trace].
    rewrite update_loop_absent; [reflexivity|].
    now apply not_named_notin.
  - cbn [orb] in H. rewrite IH by assumption.
    cbn [map]. now rewrite <- app_assoc.
Qed.

(** The scan of the fetch in variant 1: nothing happens before the first
    note of the name; once a response is sent, a further match throws on
    [res.type] and no other effect follows. *)
Lemma send_matches_sent (n : string) (l : list Note) :
  forall w,
    headersSent w = true ->
    exists r code,
      V1.send_matches n (map note_value l) w
      = (r, mkWorld (fs w) code (contentType w) (pending w) (trace w)).
Proof.
  induction l as [|x l IH]; intros w Hw.
  - exists (Fulfilled tt), (statusCode w). now destruct w.
  - cbn [map V1.send_matches]. unfold bind at 1, sync. rewrite name_is_note.
    destruct (named n x).
    + exists (Rejected ERR_HTTP_HEADERS_SENT), 200.
      unfold bind, res_status, res_type, headersSent in *.
      cbn [trace]. now rewrite Hw.
    + unfold bind at 1, ret. now apply IH.
Qed.

Lemma send_matches_fresh (n : string) (l : list Note) :
  forall w,
    headersSent w = false ->
    match first_match n l with
    | None => V1.send_matches n (map note_value l) w = (Fulfilled tt, w)
    | Some (_, x) =>
        exists r code,
          V1.send_matches n (map note_value l) w
          = (r, mkWorld (fs w) code (Some "text") (pending w)
                  (trace w ++ [Responded (found_response x)]))
    end.
Proof.
  induction l as [|x l IH]; intros w Hw; [reflexivity|].
  cbn [first_match]. destruct (named n x) eqn:E.
  - cbn [map V1.send_matches]. unfold bind at 1, sync. rewrite name_is_note, E.
    set (w1 := mkWorld (fs w) 200 (Some "text") (pending w)
                 (trace w ++ [Responded (found_response x)])).
    assert (H1 : headersSent w1 = true).
    { unfold headersSent, w1. cbn [trace]. rewrite existsb_app. cbn.
      now rewrite orb_true_r. }
    destruct (send_matches_sent n l w1 H1) as (r & code & Hr).
    exists r, code.
    unfold bind, res_status, res_type, res_send, log, sync, headersSent in *.
    cbn [trace fs statusCode contentType pending get_prop note_value new_note
         lookup String.eqb] in *.
    rewrite Hw. cbn -[V1.send_matches]. rewrite Hw. cbn -[V1.send_matches].
    fold w1. exact Hr.
  - cbn [map V1.send_matches]. unfold bind at 1, sync. rewrite name_is_note, E.
    unfold bind at 1, ret. specialize (IH w Hw).
    destruct (first_match n l) as [[i y]|]; exact IH.
Qed.

Section OnStore.

Variables (d : disk) (content : string) (ns : list Note).
Hypothesis Hcache : cache d = Some content.
Hypothesis Hparse : parse content = Some (store_value ns).

Lemma get_note_documented (n : string) :
  serve Documented (GetNote n) d
  = (Fulfilled tt,
     match first_match n ns with
     | Some (_, x) => mkWorld d 200 (Some "text") [] [Responded (found_response x)]
     | None => mkWorld d 404 None [] [Responded (empty_response 404)]
     end).
Proof.
  unfold serve, run, handler, V2.handler, V2.get_note, catch, bind, readFile,
    JSON_parse, sync.
  cbn -[parse stringify array_find]. rewrite Hcache, Hparse.
  cbn -[parse stringify array_find]. rewrite array_find_notes.
  destruct (first_match n ns) as [[i x]|]; reflexivity.
Qed.

Lemma list_notes_any (v : variant) :
  serve v ListNotes d
  = (Fulfilled tt,
     mkWorld d 200 (Some "json") []
       [Responded (mkResponse 200 (Some "json") (Some (Buffer content)))]).
Proof.
  destruct v;
    unfold serve, run, handler, V1.handler, V2.handler, V1.list_notes,
      V2.list_notes, catch, bind, readFile;
    cbn; rewrite Hcache; reflexivity.
Qed.

Lemma put_note_documented (n t : string) :
  serve Documented (PutNote n (JStr t)) d
  = (Fulfilled tt,
     let data := stringify (store_value (replace_text n t ns)) in
     match first_match n ns with
     | Some _ =>
         if writable d then
           mkWorld (mkDisk (Some data) true) 201 None []
             [Wrote data; Responded (empty_response 201)]
         else mkWorld d 500 None [] [WriteFailed; Responded error_response]
     | None => mkWorld d 404 None [] [Responded (empty_response 404)]
     end).
Proof.
  unfold serve, run, handler, V2.handler, V2.put_note, catch, bind, readFile,
    JSON_parse, sync.
  cbn -[parse stringify array_find]. rewrite Hcache, Hparse.
  cbn -[parse stringify array_find]. rewrite array_find_notes.
  destruct (first_match n ns) as [[i x]|] eqn:E; [|reflexivity].
  cbn -[parse stringify update_at].
  rewrite (update_at_first_match n t ns i x E).
  unfold writeFile. cbn -[stringify].
  destruct (writable d); reflexivity.
Qed.

Lemma post_write_documented (n t : string) :
  serve Documented (PostWrite n t) d
  = (Fulfilled tt,
     let data := stringify (store_value (ns ++ [mkNote n t])) in
     if existsb (named n) ns then
       mkWorld d 400 None [] [Responded (empty_response 400)]
     else if writable d then
       mkWorld (mkDisk (Some data) true) 201 None []
         [Wrote data; Responded (empty_response 201)]
     else mkWorld d 500 None [] [WriteFailed; Responded error_response]).
Proof.
  unfold serve, run, handler, V2.handler, V2.post_write, catch, bind, readFile,
    JSON_parse, sync.
  cbn -[parse stringify array_some]. rewrite Hcache, Hparse.
  cbn -[parse stringify array_some]. rewrite array_some_notes.
  destruct (existsb (named n) ns); [reflexivity|].
  unfold writeFile, store_value. rewrite map_app. cbn -[stringify].
  destruct (writable d); reflexivity.
Qed.

Lemma delete_note_documented (n : string) :
  serve Documented (DeleteNote n) d
  = (Fulfilled tt,
     let data := stringify (store_value (without n ns)) in
     if existsb (named n) ns then
       if writable d then
         mkWorld (mkDisk (Some data) true) 200 None []
           [Wrote data; Responded (empty_response 200)]
       else mkWorld d 500 None [] [WriteFailed; Responded error_response]
     else mkWorld d 404 None [] [Responded (empty_response 404)]).
Proof.
  unfold serve, run, handler, V2.handler, V2.delete_note, catch, bind, readFile,
    JSON_parse, sync.
  cbn -[parse stringify array_reject Nat.eqb]. rewrite Hcache, Hparse.
  cbn -[parse stringify array_reject Nat.eqb]. rewrite array_reject_notes.
  rewrite !length_map, without_length, negb_involutive.
  destruct (existsb (named n) ns); [|reflexivity].
  unfold writeFile. cbn -[stringify].
  destruct (writable d); reflexivity.
Qed.

Lemma get_note_lab5 (n : string) :
  exists r code type more,
    serve Lab5 (GetNote n) d
    = (r, mkWorld d code type []
            (Responded (match first_match n ns with
                        | Some (_, x) => found_response x
                        | None => empty_response 404
                        end) :: more)).
Proof.
  unfold serve, run, handler, V1.handler, V1.get_note.
  unfold bind at 1, readFile. cbn [fs]. rewrite Hcache.
  unfold bind at 1, JSON_parse, sync. rewrite Hparse.
  unfold bind at 1. cbn [store_value as_array].
  unfold bind at 1.
  pose proof (send_matches_fresh n ns (mkWorld d 200 None [] []) eq_refl) as H.
  destruct (first_match n ns) as [[i x]|].
  - destruct H as (r & code & ->). destruct r; repeat eexists.
  - rewrite H. repeat eexists.
Qed.

Lemma put_note_lab5 (n t : string) :
  NoDup (names ns) ->
  serve Lab5 (PutNote n (JStr t)) d
  = (Fulfilled tt,
     let data := stringify (store_value (replace_text n t ns)) in
     if existsb (named n) ns then
       if writable d then
         mkWorld (mkDisk (Some data) true) 404 None []
           [Responded (empty_response 201); Responded (empty_response 404);
            Wrote data]
       else
         mkWorld d 404 None []
           [Responded (empty_response 201); Responded (empty_response 404);
            WriteFailed]
     else mkWorld d 404 None [] [Responded (empty_response 404)]).
Proof.
  intro Hnd.
  unfold serve, run, handler, V1.handler, V1.put_note.
  unfold bind at 1, readFile. cbn [fs]. rewrite Hcache.
  unfold bind at 1, JSON_parse, sync. rewrite Hparse.
  unfold bind at 1. cbn [store_value V1.array_like_length].
  unfold bind at 1.
  destruct (existsb (named n) ns) eqn:E.
  - rewrite update_loop_once by assumption.
    cbn -[stringify writeFile]. unfold writeFile. cbn -[stringify].
    destruct (writable d); reflexivity.
  - rewrite update_loop_absent by assumption. reflexivity.
Qed.

Lemma post_write_lab5 (n t : string) :
  serve Lab5 (PostWrite n t) d
  = (Fulfilled tt,
     let data := stringify (store_value (ns ++ [mkNote n t])) in
     if existsb (named n) ns then
       mkWorld d 400 None [] [Responded (empty_response 400)]
     else if writable d then
       mkWorld (mkDisk (Some data) true) 201 None []
         [Responded (empty_response 201); Wrote data]
     else mkWorld d 201 None [] [Responded (empty_response 201); WriteFailed]).
Proof.
  unfold serve, run, handler, V1.handler, V1.post_write, bind, readFile,
    JSON_parse, sync.
  cbn -[parse stringify V1.flag_matches]. rewrite Hcache, Hparse.
  cbn -[parse stringify V1.flag_matches]. rewrite flag_matches_notes.
  cbn [orb]. destruct (existsb (named n) ns); [reflexivity|].
  unfold store_value. rewrite map_app.
  cbn -[stringify writeFile]. unfold writeFile. cbn -[stringify].
  destruct (writable d); reflexivity.
Qed.

Lemma delete_note_lab5 (n : string) :
  serve Lab5 (DeleteNote n) d
  = (Fulfilled tt,
     let data := stringify (store_value (without n ns)) in
     if existsb (named n) ns then
       if writable d then
         mkWorld (mkDisk (Some data) true) 200 None []
           [Responded (empty_response 200); Wrote data]
       else mkWorld d 200 None [] [Responded (empty_response 200); WriteFailed]
     else mkWorld d 404 None [] [Responded (empty_response 404)]).
Proof.
  unfold serve, run, handler, V1.handler, V1.delete_note, bind, readFile,
    JSON_parse, sync.
  cbn -[parse stringify V1.split_matches]. rewrite Hcache, Hparse.
  cbn -[parse stringify V1.split_matches]. rewrite split_matches_notes.
  cbn [orb app]. destruct (existsb (named n) ns); [|reflexivity].
  cbn -[stringify writeFile]. unfold writeFile. cbn -[stringify].
  destruct (writable d); reflexivity.
Qed.

End OnStore.

(** ** Facts about lists of notes *)

Lemma stored_written (ns : list Note) (w : bool) :
  stored (mkDisk (Some (stringify (store_value ns))) w) ns.
Proof. eexists; split; [reflexivity | apply parse_stringify_store]. Qed.

Lemma first_match_absent (n : string) (ns : list Note) :
  ~ In n (names ns) -> first_match n ns = None.
Proof.
  intro H. apply not_named_notin in H. rewrite first_match_exists in H.
  now destruct (first_match n ns).
Qed.

Lemma first_match_present (n : string) (ns : list Note) :
  In n (names ns) -> exists i x, first_match n ns = Some (i, x).
Proof.
  intro H. apply existsb_named_In in H. rewrite first_match_exists in H.
  destruct (first_match n ns) as [[i x]|]; [now exists i, x | discriminate].
Qed.

Lemma first_match_appended (n t : string) (ns : list Note) :
  ~ In n (names ns) ->
  first_match n (ns ++ [mkNote n t]) = Some (length ns, mkNote n t).
Proof.
  induction ns as [|x ns IH]; intro H.
  - cbn. unfold named. cbn. now rewrite String.eqb_refl.
  - cbn [names map In] in H. cbn [app first_match length].
    destruct (named n x) eqn:E.
    + apply String.eqb_eq in E. tauto.
    + rewrite IH; [reflexivity | tauto].
Qed.

Lemma names_replace_text (n t : string) (ns : list Note) :
  names (replace_text n t ns) = names ns.
Proof.
  induction ns as [|x ns IH]; [reflexivity|].
  cbn [replace_text]. destruct (named n x); cbn; [reflexivity|].
  f_equal. exact IH.
Qed.

Lemma names_without_incl (n m : string) (ns : list Note) :
  In m (names (without n ns)) -> In m (names ns).
Proof.
  unfold names, without. rewrite !in_map_iff. intros [x [H1 H2]].
  apply filter_In in H2 as [H2 _]. now exists x.
Qed.

Lemma nodup_without (n : string) (ns : list Note) :
  NoDup (names ns) -> NoDup (names (without n ns)).
Proof.
  induction ns as [|x ns IH]; intro H; [constructor|].
  cbn [names map] in H. apply NoDup_cons_iff in H as [Hx H].
  unfold without. cbn [filter]. destruct (negb (named n x)).
  - cbn [names map]. constructor; [|now apply IH].
    intro Hin. apply Hx. eapply names_without_incl. exact Hin.
  - now apply IH.
Qed.

Lemma nodup_appended (n t : string) (ns : list Note) :
  NoDup (names ns) -> ~ In n (names ns) -> NoDup (names (ns ++ [mkNote n t])).
Proof.
  intros H Hn. unfold names. rewrite map_app. cbn [map name].
  apply NoDup_app; [exact H | repeat constructor; intros [] | ].
  intros m Hm [<- | []]. contradiction.
Qed.

Lemma without_one_less (n : string) (ns : list Note) :
  NoDup (names ns) -> In n (names ns) ->
  S (length (without n ns)) = length ns.
Proof.
  induction ns as [|x ns IH]; intros Hnd Hin; [destruct Hin|].
  cbn [names map] in Hnd, Hin. apply NoDup_cons_iff in Hnd as [Hx Hnd].
  unfold without. cbn [filter length]. destruct (named n x) eqn:E; cbn [negb].
  - apply String.eqb_eq in E. subst n. fold (without (name x) ns).
    rewrite without_absent; [reflexivity | now apply not_named_notin].
  - cbn [length]. f_equal. apply IH; [assumption|].
    destruct Hin as [Hin | Hin]; [|assumption].
    apply String.eqb_neq in E. congruence.
Qed.

(** ** Routing *)

(** A request whose name is not empty reaches the handler of its route; the
    list endpoint and the create have no name in their path. *)
Lemma receive_get (v : variant) (n : string) (d : disk) :
  n <> "" -> receive v (GetNote n) d = serve v (GetNote n) d.
Proof. destruct n; [contradiction | reflexivity]. Qed.

Lemma receive_put (v : variant) (n : string) (b : json) (d : disk) :
  n <> "" -> receive v (PutNote n b) d = serve v (PutNote n b) d.
Proof. destruct n; [contradiction | reflexivity]. Qed.

Lemma receive_delete (v : variant) (n : string) (d : disk) :
  n <> "" -> receive v (DeleteNote n) d = serve v (DeleteNote n) d.
Proof. destruct n; [contradiction | reflexivity]. Qed.

Lemma receive_post (v : variant) (n t : string) (d : disk) :
  receive v (PostWrite n t) d = serve v (PostWrite n t) d.
Proof. reflexivity. Qed.

Lemma receive_list (v : variant) (d : disk) :
  receive v ListNotes d = serve v ListNotes d.
Proof. reflexivity. Qed.

(** The path [/notes/]: the list endpoint for GET, no route for PUT and
    DELETE, which leave the file as it is. *)
Lemma receive_get_empty (v : variant) (d : disk) :
  receive v (GetNote "") d = serve v ListNotes d.
Proof. reflexivity. Qed.

Lemma receive_put_empty (v : variant) (b : json) (d : disk) :
  receive v (PutNote "" b) d
  = (Fulfilled tt,
     mkWorld d 404 (Some "html") []
       [Responded (mkResponse 404 (Some "html")
                     (Some (Buffer (not_found_page "PUT"))))]).
Proof. reflexivity. Qed.

Lemma receive_delete_empty (v : variant) (d : disk) :
  receive v (DeleteNote "") d
  = (Fulfilled tt,
     mkWorld d 404 (Some "html") []
       [Responded (mkResponse 404 (Some "html")
                     (Some (Buffer (not_found_page "DELETE"))))]).
Proof. reflexivity. Qed.

Lemma nonempty_neq (n : string) : nonempty n = true -> n <> "".
Proof. destruct n; [discriminate | intros _; discriminate]. Qed.

(** * The claims *)

(** C1: in Lab_5.js an update that finds its note calls [res.end] twice, with
    201 and then, after the loop, with 404, and both calls come before the
    write has completed.  The store holds the one note [a]. *)
Theorem put_note_lab5_responds_twice :
  serve Lab5 (PutNote "a" (JStr "world"))
    (mkDisk (Some (js "[{'name':'a','text':'hello'}]")) true)
  = (Fulfilled tt,
     mkWorld (mkDisk (Some (js "[{'name':'a','text':'world'}]")) true)
       404 None []
       [Responded (empty_response 201); Responded (empty_response 404);
        Wrote (js "[{'name':'a','text':'world'}]")]).
Proof. vm_compute. reflexivity. Qed.

(** The documented variant does what C1 says: with the note found, the text
    is replaced, the store is written and 201 is the one response, after the
    write; with no such note, 404 is the one response and nothing is
    written. *)
Lemma put_note_documented_once (d : disk) (ns : list Note) (n t : string) :
  stored d ns -> writable d = true ->
  let data := stringify (store_value (replace_text n t ns)) in
  trace (snd (serve Documented (PutNote n (JStr t)) d))
  = if existsb (named n) ns
    then [Wrote data; Responded (empty_response 201)]
    else [Responded (empty_response 404)].
Proof.
  intros (c & Hc & Hp) Hw. cbv zeta.
  rewrite (put_note_documented d c ns Hc Hp), first_match_exists, Hw.
  now destruct (first_match n ns).
Qed.

(** C2, the counterexample: the file holds [oops], which is not JSON, and
    the list endpoint of either variant answers 200 with these bytes; the
    file holds [[1]], a JSON array that holds no note, and the fetch of a
    note answers 404. *)
Lemma malformed_store_not_500 :
  parse "oops" = None
  /\ (forall v,
        reply (serve v ListNotes (mkDisk (Some "oops") true))
        = Some (mkResponse 200 (Some "json") (Some (Buffer "oops"))))
  /\ (forall ns, parse "[1]" <> Some (store_value ns))
  /\ reply (serve Documented (GetNote "a") (mkDisk (Some "[1]") true))
     = Some (empty_response 404).
Proof.
  split; [reflexivity|]. split; [intros []; reflexivity|].
  split; [|reflexivity].
  intros [|x ns]; vm_compute; discriminate.
Qed.

(** C2, amended: when the file does not hold the text of a JSON array, every
    handler of the documented variant that parses the store answers 500,
    once, and leaves the file as it is; the list endpoint of either variant
    parses nothing and answers 200 with the bytes of the file. *)
Theorem broken_store_responses (d : disk) (content : string) :
  cache d = Some content ->
  broken content = true ->
  (forall r, r <> ListNotes ->
     serve Documented r d
     = (Fulfilled tt, mkWorld d 500 None [] [Responded error_response]))
  /\ (forall v,
        serve v ListNotes d
        = (Fulfilled tt,
           mkWorld d 200 (Some "json") []
             [Responded (mkResponse 200 (Some "json") (Some (Buffer content)))])).
Proof.
  intros Hc Hb. split.
  - intros r Hr. unfold broken in Hb.
    destruct r; try contradiction;
      unfold serve, run, handler, V2.handler, V2.get_note, V2.put_note,
        V2.post_write, V2.delete_note, catch, bind, readFile, JSON_parse, sync;
      cbn -[parse]; rewrite Hc;
      (destruct (parse content) as [[]|]; try discriminate; reflexivity).
  - intros []; unfold serve, run, handler, V1.handler, V2.handler,
      V1.list_notes, V2.list_notes, catch, bind, readFile;
      cbn; rewrite Hc; reflexivity.
Qed.

Lemma broken_store_responses_witness :
  cache (mkDisk (Some (js "{'name':'a'}")) true) = Some (js "{'name':'a'}")
  /\ broken (js "{'name':'a'}") = true
  /\ serve Documented (DeleteNote "a") (mkDisk (Some (js "{'name':'a'}")) true)
     = (Fulfilled tt,
        mkWorld (mkDisk (Some (js "{'name':'a'}")) true) 500 None []
          [Responded error_response]).
Proof.
  split; [reflexivity|]. split; [reflexivity|].
  apply (broken_store_responses (mkDisk (Some (js "{'name':'a'}")) true)
           (js "{'name':'a'}") eq_refl eq_refl).
  discriminate.
Defined.

(** C3: in Lab_5.js a create of a new name finishes the response with 201
    while the write it has started is still under way: the response comes
    before the write completes.  The store holds no note. *)
Theorem post_write_lab5_responds_before_write :
  serve Lab5 (PostWrite "a" "hello") (mkDisk (Some "[]") true)
  = (Fulfilled tt,
     mkWorld (mkDisk (Some (js "[{'name':'a','text':'hello'}]")) true)
       201 None []
       [Responded (empty_response 201);
        Wrote (js "[{'name':'a','text':'hello'}]")]).
Proof. vm_compute. reflexivity. Qed.

(** The documented variant does what C3 says: a name in use is answered 400
    and nothing is written; a new name is appended, the store is written and
    201 follows the write.  In Lab_5.js the refusal is the same. *)
Lemma post_write_documented_once (d : disk) (ns : list Note) (n t : string) :
  stored d ns -> writable d = true ->
  let o := serve Documented (PostWrite n t) d in
  if existsb (named n) ns
  then trace (snd o) = [Responded (empty_response 400)] /\ disk_after o = d
  else trace (snd o)
       = [Wrote (stringify (store_value (ns ++ [mkNote n t])));
          Responded (empty_response 201)]
       /\ stored (disk_after o) (ns ++ [mkNote n t]).
Proof.
  intros (c & Hc & Hp) Hw. cbv zeta.
  rewrite (post_write_documented d c ns Hc Hp), Hw.
  destruct (existsb (named n) ns); split; try reflexivity.
  apply stored_written.
Qed.

Lemma post_write_lab5_refusal (d : disk) (ns : list Note) (n t : string) :
  stored d ns -> existsb (named n) ns = true ->
  let o := serve Lab5 (PostWrite n t) d in
  trace (snd o) = [Responded (empty_response 400)] /\ disk_after o = d.
Proof.
  intros (c & Hc & Hp) He. cbv zeta.
  rewrite (post_write_lab5 d c ns Hc Hp), He. split; reflexivity.
Qed.

(** The handlers of the delete and of the fetch, called one after the other
    with a name that a note of a store of pairwise distinct names has. *)
Lemma delete_then_get_handler (v : variant) (d : disk) (ns : list Note) (n : string) :
  stored d ns -> writable d = true ->
  NoDup (names ns) -> In n (names ns) ->
  let o := serve v (DeleteNote n) d in
  option_map status (reply o) = Some 200
  /\ (exists ns', stored (disk_after o) ns' /\ S (length ns') = length ns)
  /\ option_map status (reply (serve v (GetNote n) (disk_after o))) = Some 404.
Proof.
  intros (c & Hc & Hp) Hw Hnd Hin. cbv zeta.
  pose proof (proj2 (existsb_named_In n ns) Hin) as He.
  pose proof (first_match_absent n (without n ns) (without_notin n ns)) as Hnone.
  set (data := stringify (store_value (without n ns))).
  assert (Hc' : cache (mkDisk (Some data) true) = Some data) by reflexivity.
  pose proof (parse_stringify_store (without n ns)) as Hp'. fold data in Hp'.
  destruct v.
  - rewrite (delete_note_lab5 d c ns Hc Hp), He, Hw. cbv zeta. fold data.
    unfold disk_after. cbn [snd fs].
    split; [reflexivity|]. split.
    + exists (without n ns). split; [apply stored_written|].
      now apply without_one_less.
    + destruct (get_note_lab5 _ _ _ Hc' Hp' n) as (r & code & ty & more & ->).
      rewrite Hnone. reflexivity.
  - rewrite (delete_note_documented d c ns Hc Hp), He, Hw. cbv zeta. fold data.
    unfold disk_after. cbn [snd fs].
    split; [reflexivity|]. split.
    + exists (without n ns). split; [apply stored_written|].
      now apply without_one_less.
    + rewrite (get_note_documented _ _ _ Hc' Hp' n), Hnone. reflexivity.
Qed.

(** C4, the counterexample: the store holds the one note of the empty name,
    which a create makes.  DELETE /notes/ matches no route: Express answers
    404, the store keeps its note, and GET /notes/, the list endpoint,
    answers 200. *)
Lemma delete_empty_name_unrouted :
  let d := mkDisk (Some (js "[{'name':'','text':'x'}]")) true in
  let ns := [mkNote "" "x"] in
  stored d ns /\ NoDup (names ns) /\ In "" (names ns)
  /\ forall v,
       option_map status (reply (receive v (DeleteNote "") d)) = Some 404
       /\ disk_after (receive v (DeleteNote "") d) = d
       /\ option_map status
            (reply (receive v (GetNote "") (disk_after (receive v (DeleteNote "") d))))
          = Some 200.
Proof.
  intros d ns. split; [eexists; split; reflexivity|].
  split; [repeat constructor; cbn; tauto|].
  split; [cbn; auto|].
  intros []; repeat split; reflexivity.
Qed.

(** C4, amended: with pairwise distinct names and a note of the name [n] in
    the store, [n] not empty, DELETE /notes/:n answers 200, the store it
    leaves is one note shorter, and GET /notes/:n received next answers
    404. *)
Theorem delete_then_get (v : variant) (d : disk) (ns : list Note) (n : string) :
  n <> "" ->
  stored d ns -> writable d = true ->
  NoDup (names ns) -> In n (names ns) ->
  let o := receive v (DeleteNote n) d in
  option_map status (reply o) = Some 200
  /\ (exists ns', stored (disk_after o) ns' /\ S (length ns') = length ns)
  /\ option_map status (reply (receive v (GetNote n) (disk_after o))) = Some 404.
Proof.
  intros Hne Hs Hw Hnd Hin. cbv zeta.
  rewrite receive_delete, receive_get by exact Hne.
  exact (delete_then_get_handler v d ns n Hs Hw Hnd Hin).
Qed.

Lemma delete_then_get_witness :
  let d := mkDisk (Some (js "[{'name':'a','text':'x'}, {'name':'b','text':'y'}]")) true in
  let ns := [mkNote "a" "x"; mkNote "b" "y"] in
  let o := receive Lab5 (DeleteNote "a") d in
  "a" <> ""
  /\ stored d ns /\ writable d = true /\ NoDup (names ns) /\ In "a" (names ns)
  /\ option_map status (reply o) = Some 200
  /\ (exists ns', stored (disk_after o) ns' /\ S (length ns') = length ns)
  /\ option_map status (reply (receive Lab5 (GetNote "a") (disk_after o))) = Some 404.
Proof.
  intros d ns o.
  assert (Hne : "a" <> "") by discriminate.
  assert (Hs : stored d ns) by (eexists; split; reflexivity).
  assert (Hnd : NoDup (names ns))
    by (repeat constructor; cbn; intuition discriminate).
  assert (Hin : In "a" (names ns)) by (cbn; auto).
  do 5 (split; [assumption || reflexivity|]).
  exact (delete_then_get Lab5 d ns "a" Hne Hs eq_refl Hnd Hin).
Defined.

(** C5: in Lab_5.js the fetch of a note has no rejection handler: when the
    file is missing, or when it does not hold JSON, the promise is rejected
    and no response is ever sent. *)
Theorem get_note_lab5_never_500 :
  serve Lab5 (GetNote "a") (mkDisk None true)
  = (Rejected ENOENT, mkWorld (mkDisk None true) 200 None [] [])
  /\ serve Lab5 (GetNote "a") (mkDisk (Some "oops") true)
     = (Rejected SyntaxError, mkWorld (mkDisk (Some "oops") true) 200 None [] []).
Proof. split; reflexivity. Qed.

(** The documented variant does what C5 says: the text of the first note of
    the name with 200 and the type text, 404 when no note has the name, 500
    when the file is missing or does not parse.  In Lab_5.js the client
    receives the same response in the first two cases. *)
Lemma get_note_documented_reply (d : disk) (ns : list Note) (n : string) :
  stored d ns ->
  reply (serve Documented (GetNote n) d)
  = Some (match first_match n ns with
          | Some (_, x) => found_response x
          | None => empty_response 404
          end).
Proof.
  intros (c & Hc & Hp). rewrite (get_note_documented d c ns Hc Hp).
  now destruct (first_match n ns) as [[i x]|].
Qed.

Lemma get_note_documented_failure (d : disk) (n : string) :
  match cache d with
  | None => True
  | Some content => parse content = None
  end ->
  reply (serve Documented (GetNote n) d) = Some error_response.
Proof.
  unfold reply, serve, run, handler, V2.handler, V2.get_note, catch, bind,
    readFile, JSON_parse, sync.
  cbn -[parse]. destruct (cache d) as [c|]; [intros ->|]; reflexivity.
Qed.

Lemma get_note_lab5_reply (d : disk) (ns : list Note) (n : string) :
  stored d ns ->
  reply (serve Lab5 (GetNote n) d)
  = Some (match first_match n ns with
          | Some (_, x) => found_response x
          | None => empty_response 404
          end).
Proof.
  intros (c & Hc & Hp).
  destruct (get_note_lab5 d c ns Hc Hp n) as (r & code & ty & more & ->).
  reflexivity.
Qed.

(** C6: when no note of the store is named [n], the delete answers 404,
    writes nothing and leaves the file as it was. *)
Theorem delete_absent (v : variant) (d : disk) (ns : list Note) (n : string) :
  stored d ns -> ~ In n (names ns) ->
  serve v (DeleteNote n) d
  = (Fulfilled tt, mkWorld d 404 None [] [Responded (empty_response 404)]).
Proof.
  intros (c & Hc & Hp) Hn. apply not_named_notin in Hn.
  destruct v.
  - now rewrite (delete_note_lab5 d c ns Hc Hp), Hn.
  - now rewrite (delete_note_documented d c ns Hc Hp), Hn.
Qed.

Lemma delete_absent_witness :
  let d := mkDisk (Some (js "[{'name':'a','text':'x'}]")) false in
  let ns := [mkNote "a" "x"] in
  stored d ns /\ ~ In "b" (names ns)
  /\ serve Documented (DeleteNote "b") d
     = (Fulfilled tt, mkWorld d 404 None [] [Responded (empty_response 404)]).
Proof.
  intros d ns.
  assert (Hs : stored d ns) by (eexists; split; reflexivity).
  assert (Hn : ~ In "b" (names ns)) by (cbn; intuition discriminate).
  do 2 (split; [assumption|]).
  exact (delete_absent Documented d ns "b" Hs Hn).
Defined.

(** The handlers of the create and of the fetch, called one after the other
    with a name that no note has. *)
Lemma create_then_get_handler (v : variant) (d : disk) (ns : list Note) (n t : string) :
  stored d ns -> writable d = true -> ~ In n (names ns) ->
  reply (serve v (GetNote n) (disk_after (serve v (PostWrite n t) d)))
  = Some (mkResponse 200 (Some "text") (Some (Value (JStr t)))).
Proof.
  intros (c & Hc & Hp) Hw Hn.
  pose proof (first_match_appended n t ns Hn) as Hfirst.
  apply not_named_notin in Hn.
  pose proof (stored_written (ns ++ [mkNote n t]) true) as Hs.
  destruct v.
  - rewrite (post_write_lab5 d c ns Hc Hp), Hn, Hw. cbv zeta.
    unfold disk_after. cbn [snd fs].
    now rewrite (get_note_lab5_reply _ _ n Hs), Hfirst.
  - rewrite (post_write_documented d c ns Hc Hp), Hn, Hw. cbv zeta.
    unfold disk_after. cbn [snd fs].
    now rewrite (get_note_documented_reply _ _ n Hs), Hfirst.
Qed.

(** C7, the counterexample: the store is empty.  POST /write with the empty
    name and the text [hello] is answered 201; GET /notes/ is the list
    endpoint and answers the whole array with the type json, not the
    text. *)
Lemma create_empty_name_then_get :
  let d := mkDisk (Some "[]") true in
  stored d [] /\ ~ In "" (names [])
  /\ forall v,
       reply (receive v (PostWrite "" "hello") d) = Some (empty_response 201)
       /\ reply (receive v (GetNote "")
                   (disk_after (receive v (PostWrite "" "hello") d)))
          = Some (mkResponse 200 (Some "json")
                    (Some (Buffer (js "[{'name':'','text':'hello'}]")))).
Proof.
  intro d. split; [eexists; split; reflexivity|].
  split; [cbn; tauto|].
  intros []; split; reflexivity.
Qed.

(** C7, amended: a create of a name that is not empty and that no note has,
    then GET /notes/:n, answers 200 with the text that was supplied. *)
Theorem create_then_get (v : variant) (d : disk) (ns : list Note) (n t : string) :
  n <> "" ->
  stored d ns -> writable d = true -> ~ In n (names ns) ->
  reply (receive v (GetNote n) (disk_after (receive v (PostWrite n t) d)))
  = Some (mkResponse 200 (Some "text") (Some (Value (JStr t)))).
Proof.
  intros Hne Hs Hw Hn.
  rewrite receive_post, receive_get by exact Hne.
  exact (create_then_get_handler v d ns n t Hs Hw Hn).
Qed.

Lemma create_then_get_witness :
  let d := mkDisk (Some (js "[{'name':'a','text':'x'}]")) true in
  let ns := [mkNote "a" "x"] in
  "b" <> ""
  /\ stored d ns /\ writable d = true /\ ~ In "b" (names ns)
  /\ reply (receive Lab5 (GetNote "b")
              (disk_after (receive Lab5 (PostWrite "b" "hello") d)))
     = Some (mkResponse 200 (Some "text") (Some (Value (JStr "hello")))).
Proof.
  intros d ns.
  assert (Hne : "b" <> "") by discriminate.
  assert (Hs : stored d ns) by (eexists; split; reflexivity).
  assert (Hn : ~ In "b" (names ns)) by (cbn; intuition discriminate).
  do 4 (split; [assumption || reflexivity|]).
  exact (create_then_get Lab5 d ns "b" "hello" Hne Hs eq_refl Hn).
Defined.

(** ** Sequences of operations *)

(** One operation served on a store of pairwise distinct names. *)
Lemma serve_operation (v : variant) (o : operation) (d : disk) (ns : list Note) :
  stored d ns -> writable d = true -> NoDup (names ns) ->
  let d' := disk_after (serve v (request_of o) d) in
  stored d' (effect ns o) /\ writable d' = true /\ NoDup (names (effect ns o)).
Proof.
  intros Hs Hw Hnd. pose proof Hs as (c & Hc & Hp). cbv zeta.
  assert (Hkeep : stored d ns /\ writable d = true) by now split.
  destruct o as [n t | n t | n]; cbn [request_of effect].
  - replace (disk_after (serve v (PostWrite n t) d))
      with (if existsb (named n) ns then d
            else mkDisk (Some (stringify (store_value (ns ++ [mkNote n t])))) true).
    2:{ destruct v;
          [rewrite (post_write_lab5 d c ns Hc Hp)
          | rewrite (post_write_documented d c ns Hc Hp)];
          rewrite Hw; now destruct (existsb (named n) ns). }
    destruct (existsb (named n) ns) eqn:E; [tauto|].
    split; [apply stored_written|]. split; [reflexivity|].
    apply nodup_appended; [assumption | now apply not_named_notin].
  - rewrite names_replace_text.
    replace (disk_after (serve v (PutNote n (JStr t)) d))
      with (if existsb (named n) ns
            then mkDisk (Some (stringify (store_value (replace_text n t ns)))) true
            else d).
    2:{ destruct v;
          [rewrite (put_note_lab5 d c ns Hc Hp n t Hnd)
          | rewrite (put_note_documented d c ns Hc Hp), first_match_exists];
          rewrite Hw; [now destruct (existsb (named n) ns)
                      | now destruct (first_match n ns)]. }
    destruct (existsb (named n) ns) eqn:E.
    + split; [apply stored_written|]. now split.
    + assert (Hsame : replace_text n t ns = ns).
      { clear - E. induction ns as [|x ns IH]; [reflexivity|].
        cbn [existsb] in E. apply orb_false_iff in E as [Ex E].
        cbn [replace_text]. rewrite Ex. f_equal. now apply IH. }
      rewrite Hsame. tauto.
  - replace (disk_after (serve v (DeleteNote n) d))
      with (if existsb (named n) ns
            then mkDisk (Some (stringify (store_value (without n ns)))) true
            else d).
    2:{ destruct v;
          [rewrite (delete_note_lab5 d c ns Hc Hp)
          | rewrite (delete_note_documented d c ns Hc Hp)];
          rewrite Hw; now destruct (existsb (named n) ns). }
    destruct (existsb (named n) ns) eqn:E.
    + split; [apply stored_written|]. split; [reflexivity|].
      now apply nodup_without.
    + rewrite (without_absent n ns E). tauto.
Qed.

Lemma serve_operations (v : variant) (os : list operation) :
  forall (d : disk) (ns : list Note),
    stored d ns -> writable d = true -> NoDup (names ns) ->
    let d' := serve_all v (map request_of os) d in
    stored d' (effects os ns) /\ writable d' = true
    /\ NoDup (names (effects os ns)).
Proof.
  induction os as [|o os IH]; intros d ns Hs Hw Hnd; cbv zeta.
  - now repeat split.
  - cbn [map serve_all effects fold_left].
    destruct (serve_operation v o d ns Hs Hw Hnd) as (Hs' & Hw' & Hnd').
    exact (IH _ _ Hs' Hw' Hnd').
Qed.

(** One operation received on a store of pairwise distinct names. *)
Lemma receive_operation (v : variant) (o : operation) (d : disk)
  (ns : list Note) :
  stored d ns -> writable d = true -> NoDup (names ns) ->
  let d' := disk_after (receive v (request_of o) d) in
  stored d' (routed_effect ns o) /\ writable d' = true
  /\ NoDup (names (routed_effect ns o)).
Proof.
  intros Hs Hw Hnd. cbv zeta.
  pose proof (serve_operation v o d ns Hs Hw Hnd) as H. cbv zeta in H.
  unfold routed_effect.
  destruct o as [n t|n t|n]; cbn [request_of reaches] in *.
  - rewrite receive_post. exact H.
  - destruct n as [|c n]; cbn [nonempty].
    + rewrite receive_put_empty. now repeat split.
    + rewrite receive_put by discriminate. exact H.
  - destruct n as [|c n]; cbn [nonempty].
    + rewrite receive_delete_empty. now repeat split.
    + rewrite receive_delete by discriminate. exact H.
Qed.

Lemma receive_operations (v : variant) (os : list operation) :
  forall (d : disk) (ns : list Note),
    stored d ns -> writable d = true -> NoDup (names ns) ->
    let d' := receive_all v (map request_of os) d in
    stored d' (routed_effects os ns) /\ writable d' = true
    /\ NoDup (names (routed_effects os ns)).
Proof.
  induction os as [|o os IH]; intros d ns Hs Hw Hnd; cbv zeta.
  - now repeat split.
  - cbn [map receive_all routed_effects fold_left].
    destruct (receive_operation v o d ns Hs Hw Hnd) as (Hs' & Hw' & Hnd').
    exact (IH _ _ Hs' Hw' Hnd').
Qed.

(** C8, the counterexample: from the store the process creates, a create of
    the empty name and then a delete of the empty name.  By the words of the
    specification no note is left; the delete, DELETE /notes/, matches no
    route, and the list endpoint still answers the note. *)
Lemma delete_empty_name_still_listed :
  let d := bootstrap (mkDisk None true) in
  let os := [Create "" "x"; Delete ""] in
  stored d [] /\ writable d = true /\ effects os [] = []
  /\ parse (js "[{'name':'','text':'x'}]") = Some (store_value [mkNote "" "x"])
  /\ forall v,
       reply (receive v ListNotes (receive_all v (map request_of os) d))
       = Some (mkResponse 200 (Some "json")
                 (Some (Buffer (js "[{'name':'','text':'x'}]")))).
Proof.
  intros d os. split; [eexists; split; reflexivity|].
  do 3 (split; [reflexivity|]).
  intros []; reflexivity.
Qed.

(** C8, amended: after any sequence of creates, updates and deletes received
    from the empty store, the list endpoint answers 200 with a JSON text
    that parses to the notes the operations leave, in the order of their
    insertion, an update or a delete of the empty name leaving the store as
    it is: creates append, updates keep the places, deletes keep the order
    of the others. *)
Theorem list_after_operations (v : variant) (os : list operation) (d : disk) :
  stored d [] -> writable d = true ->
  exists content,
    reply (receive v ListNotes (receive_all v (map request_of os) d))
    = Some (mkResponse 200 (Some "json") (Some (Buffer content)))
    /\ parse content = Some (store_value (routed_effects os [])).
Proof.
  intros Hs Hw.
  destruct (receive_operations v os d [] Hs Hw (NoDup_nil _))
    as ((c & Hc & Hp) & _).
  exists c. split; [|exact Hp].
  now rewrite receive_list, (list_notes_any _ c Hc).
Qed.

Lemma list_after_operations_witness :
  let d := bootstrap (mkDisk None true) in
  let os := [Create "a" "hello"; Create "" "x"; Update "a" "world";
             Update "" "y"; Create "a" "again"; Delete ""; Delete "a";
             Create "c" "z"] in
  stored d [] /\ writable d = true
  /\ exists content,
       reply (receive Lab5 ListNotes (receive_all Lab5 (map request_of os) d))
       = Some (mkResponse 200 (Some "json") (Some (Buffer content)))
       /\ parse content = Some (store_value (routed_effects os [])).
Proof.
  intros d os.
  assert (Hs : stored d []) by (eexists; split; reflexivity).
  do 2 (split; [assumption || reflexivity|]).
  exact (list_after_operations Lab5 os d Hs eq_refl).
Defined.

(** C9: requests being served one after the other, every store reached from
    the empty store by creates, updates and deletes holds notes of pairwise
    distinct names. *)
Theorem reachable_names_distinct (v : variant) (os : list operation) (d : disk) :
  stored d [] -> writable d = true ->
  exists ns,
    stored (serve_all v (map request_of os) d) ns /\ NoDup (names ns).
Proof.
  intros Hs Hw. exists (effects os []).
  destruct (serve_operations v os d [] Hs Hw (NoDup_nil _)) as (H1 & _ & H2).
  now split.
Qed.

Lemma reachable_names_distinct_witness :
  let d := bootstrap (mkDisk None true) in
  let os := [Create "a" "hello"; Create "a" "again"; Update "a" "world";
             Delete "b"; Create "b" "x"] in
  stored d [] /\ writable d = true
  /\ exists ns,
       stored (serve_all Documented (map request_of os) d) ns
       /\ NoDup (names ns).
Proof.
  intros d os.
  assert (Hs : stored d []) by (eexists; split; reflexivity).
  do 2 (split; [assumption || reflexivity|]).
  exact (reachable_names_distinct Documented os d Hs eq_refl).
Defined.

(** The handler of the delete, called with any name on any store of notes,
    several notes of the name included. *)
Lemma delete_removes_every_handler (v : variant) (d : disk) (ns : list Note)
  (n : string) :
  stored d ns -> writable d = true ->
  stored (disk_after (serve v (DeleteNote n) d)) (without n ns)
  /\ ~ In n (names (without n ns)).
Proof.
  intros Hs Hw. pose proof Hs as (c & Hc & Hp).
  split; [|apply without_notin].
  replace (disk_after (serve v (DeleteNote n) d))
    with (if existsb (named n) ns
          then mkDisk (Some (stringify (store_value (without n ns)))) true
          else d).
  2:{ destruct v;
        [rewrite (delete_note_lab5 d c ns Hc Hp)
        | rewrite (delete_note_documented d c ns Hc Hp)];
        rewrite Hw; now destruct (existsb (named n) ns). }
  destruct (existsb (named n) ns) eqn:E; [apply stored_written|].
  now rewrite (without_absent n ns E).
Qed.

(** C10, the counterexample: the store holds the one note of the empty name.
    DELETE /notes/ matches no route, Express answers 404 and the store still
    holds the note. *)
Lemma delete_empty_name_keeps_note :
  let d := mkDisk (Some (js "[{'name':'','text':'x'}]")) true in
  stored d [mkNote "" "x"]
  /\ forall v,
       option_map status (reply (receive v (DeleteNote "") d)) = Some 404
       /\ stored (disk_after (receive v (DeleteNote "") d)) [mkNote "" "x"]
       /\ In "" (names [mkNote "" "x"]).
Proof.
  intro d.
  assert (Hs : stored d [mkNote "" "x"]) by (eexists; split; reflexivity).
  split; [exact Hs|].
  intros []; (split; [reflexivity|]); (split; [exact Hs | cbn; auto]).
Qed.

(** C10, amended: whatever the store holds, several notes named [n]
    included, DELETE /notes/:n with [n] not empty leaves the notes of the
    other names, in their order, and no note named [n]. *)
Theorem delete_removes_every (v : variant) (d : disk) (ns : list Note)
  (n : string) :
  n <> "" ->
  stored d ns -> writable d = true ->
  stored (disk_after (receive v (DeleteNote n) d)) (without n ns)
  /\ ~ In n (names (without n ns)).
Proof.
  intros Hne Hs Hw. rewrite receive_delete by exact Hne.
  exact (delete_removes_every_handler v d ns n Hs Hw).
Qed.

Lemma delete_removes_every_witness :
  let d := mkDisk (Some (js "[{'name':'a','text':'x'},{'name':'b','text':'y'},{'name':'a','text':'z'}]")) true in
  let ns := [mkNote "a" "x"; mkNote "b" "y"; mkNote "a" "z"] in
  "a" <> ""
  /\ stored d ns /\ writable d = true
  /\ stored (disk_after (receive Lab5 (DeleteNote "a") d)) (without "a" ns)
  /\ ~ In "a" (names (without "a" ns)).
Proof.
  intros d ns.
  assert (Hne : "a" <> "") by discriminate.
  assert (Hs : stored d ns) by (eexists; split; reflexivity).
  do 3 (split; [assumption || reflexivity|]).
  exact (delete_removes_every Lab5 d ns "a" Hne Hs eq_refl).
Defined.

(** * Further properties of the handlers *)

(** ** The documented variant on any file *)

(** X1: whatever the store file holds, and whether or not it exists, every
    handler of the documented variant settles with exactly one response; a
    write, when there is one, comes before the response; a completed write
    is answered 200 or 201 and a failed write 500 with the file as it
    was. *)
Theorem documented_one_response (r : request) (d : disk) :
  exists resp,
    fst (serve Documented r d) = Fulfilled tt
    /\ ((trace (snd (serve Documented r d)) = [Responded resp]
         /\ disk_after (serve Documented r d) = d)
        \/ (exists data,
              trace (snd (serve Documented r d)) = [Wrote data; Responded resp]
              /\ disk_after (serve Documented r d) = mkDisk (Some data) true
              /\ (status resp = 200 \/ status resp = 201))
        \/ (trace (snd (serve Documented r d)) = [WriteFailed; Responded resp]
            /\ status resp = 500
            /\ disk_after (serve Documented r d) = d)).
Proof.
  destruct r as [|n|n b|n t|n];
    unfold disk_after, serve, run, handler, V2.handler, V2.list_notes,
      V2.get_note, V2.put_note, V2.post_write, V2.delete_note, catch, bind,
      readFile, JSON_parse, sync;
    cbn -[parse stringify array_find array_some array_reject update_at
          Nat.eqb truthy get_prop];
    (destruct (cache d) as [content|];
       [|eexists; split; [reflexivity | left; split; reflexivity]]).
  - eexists; split; [reflexivity | left; split; reflexivity].
  - destruct (parse content) as [[]|];
      try (eexists; split; [reflexivity | left; split; reflexivity]).
    cbn -[array_find truthy get_prop].
    destruct (array_find (name_is n) items) as [e|[[i el]|]];
      try (eexists; split; [reflexivity | left; split; reflexivity]).
    destruct el; cbn;
      try (eexists; split; [reflexivity | left; split; reflexivity]).
    + destruct b; eexists; (split; [reflexivity | left; split; reflexivity]).
    + destruct (zero_literal lit);
        eexists; (split; [reflexivity | left; split; reflexivity]).
    + destruct s; eexists; (split; [reflexivity | left; split; reflexivity]).
  - destruct (parse content) as [[]|];
      try (eexists; split; [reflexivity | left; split; reflexivity]).
    cbn -[array_find truthy stringify update_at].
    destruct (array_find (name_is n) items) as [e|[[i el]|]];
      try (eexists; split; [reflexivity | left; split; reflexivity]).
    destruct (truthy el);
      [|eexists; split; [reflexivity | left; split; reflexivity]].
    unfold writeFile. cbn -[stringify update_at].
    destruct (writable d) eqn:Hw; cbn -[stringify update_at].
    + eexists; split; [reflexivity|]. right; left. eexists.
      repeat split; auto.
    + eexists; split; [reflexivity|]. right; right. repeat split; auto.
  - destruct (parse content) as [[]|];
      try (eexists; split; [reflexivity | left; split; reflexivity]).
    cbn -[array_some stringify].
    destruct (array_some (name_is n) items) as [e|[]];
      try (eexists; split; [reflexivity | left; split; reflexivity]).
    unfold writeFile. cbn -[stringify].
    destruct (writable d) eqn:Hw; cbn -[stringify].
    + eexists; split; [reflexivity|]. right; left. eexists.
      repeat split; auto.
    + eexists; split; [reflexivity|]. right; right. repeat split; auto.
  - destruct (parse content) as [[]|];
      try (eexists; split; [reflexivity | left; split; reflexivity]).
    cbn -[array_reject stringify Nat.eqb].
    destruct (array_reject (name_is n) items) as [e|kept];
      try (eexists; split; [reflexivity | left; split; reflexivity]).
    cbn -[stringify Nat.eqb].
    destruct (Nat.eqb (length items) (length kept)); cbn -[stringify];
      [eexists; split; [reflexivity | left; split; reflexivity]|].
    unfold writeFile. cbn -[stringify].
    destruct (writable d) eqn:Hw; cbn -[stringify].
    + eexists; split; [reflexivity|]. right; left. eexists.
      repeat split; auto.
    + eexists; split; [reflexivity|]. right; right. repeat split; auto.
Qed.

(** ** Lab_5.js on any file *)

(** The scan of the fetch on any array: it touches neither the file nor the
    writes under way, and every response it finishes has the status 200. *)
Lemma send_matches_effects (n : string) (l : list json) :
  forall w,
    exists r code type rs,
      V1.send_matches n l w
      = (r, mkWorld (fs w) code type (pending w) (trace w ++ map Responded rs))
      /\ Forall (fun x => status x = 200) rs.
Proof.
  induction l as [|el l IH]; intro w.
  - exists (Fulfilled tt), (statusCode w), (contentType w), [].
    cbn. rewrite app_nil_r. split; [now destruct w | constructor].
  - cbn [V1.send_matches]. unfold bind at 1, sync.
    destruct (name_is n el) as [e|[]].
    + exists (Rejected e), (statusCode w), (contentType w), [].
      cbn. rewrite app_nil_r. split; [now destruct w | constructor].
    + unfold bind at 1. unfold bind at 1, res_status.
      unfold bind at 1, res_type. cbn [trace fs statusCode contentType pending].
      unfold headersSent at 1. cbn [trace].
      destruct (existsb is_response (trace w)) eqn:Hsent.
      * exists (Rejected ERR_HTTP_HEADERS_SENT), 200, (contentType w), [].
        cbn. rewrite app_nil_r. split; [reflexivity | constructor].
      * unfold bind at 1, sync.
        destruct (get_prop el "text") as [e|x].
        -- exists (Rejected e), 200, (Some "text"), [].
           cbn. rewrite app_nil_r. split; [reflexivity | constructor].
        -- unfold res_send, headersSent, log.
           cbn [trace fs statusCode contentType pending]. rewrite Hsent.
           match goal with
           | |- context [V1.send_matches n l ?w1] =>
               destruct (IH w1) as (r & code & ty & rs & Hr & Hrs)
           end.
           rewrite Hr. cbn [trace fs statusCode contentType pending].
           exists r, code, ty,
             (mkResponse 200 (Some "text") (option_map Value x) :: rs).
           cbn [map]. rewrite <- app_assoc. split; [reflexivity|].
           constructor; [reflexivity | assumption].
    + unfold bind at 1, ret. apply IH.
Qed.

Lemma responses_app (t1 t2 : list event) :
  responses (t1 ++ t2) = responses t1 ++ responses t2.
Proof.
  induction t1 as [|e t1 IH]; [reflexivity|].
  destruct e; cbn; now rewrite IH.
Qed.

Lemma responses_map (rs : list response) : responses (map Responded rs) = rs.
Proof. induction rs as [|r rs IH]; [reflexivity | cbn; now rewrite IH]. Qed.

(** The writes that settle after the callback add no response and touch
    nothing but the file. *)
Lemma settle_writes_responses (writes : list string) :
  forall w, responses (trace (settle_writes writes w)) = responses (trace w).
Proof.
  induction writes as [|data writes IH]; intro w; [reflexivity|].
  cbn [settle_writes]. rewrite IH. unfold writeFile, log.
  destruct (writable (fs w)); cbn [snd trace];
    rewrite responses_app; cbn; now rewrite app_nil_r.
Qed.

Ltac status_in := cbn; repeat ((left; reflexivity) || right).

Lemma run_responses (h : promise unit) (d : disk) :
  responses (trace (snd (run h d)))
  = responses (trace (snd (h (mkWorld d 200 None [] [])))).
Proof.
  unfold run. destruct (h (mkWorld d 200 None [] [])) as [r w].
  cbn [snd]. now rewrite settle_writes_responses.
Qed.

(** X2: whatever the store file holds, Lab_5.js answers a create with 201 or
    400 and a delete with 200 or 404 when it answers at all: neither handler
    has a rejection handler, and no failure to read, to parse or to write is
    answered 500. *)
Theorem lab5_statuses (d : disk) (n t : string) :
  Forall (fun x => In (status x) [201; 400])
    (responses (trace (snd (receive Lab5 (PostWrite n t) d))))
  /\ Forall (fun x => In (status x) [200; 404])
       (responses (trace (snd (receive Lab5 (DeleteNote n) d)))).
Proof.
  unfold receive. rewrite !run_responses. split.
  - cbn [routed handler V1.handler].
    unfold V1.post_write, bind, readFile, JSON_parse, sync.
    cbn -[parse stringify V1.flag_matches].
    destruct (cache d) as [c|]; [|constructor].
    destruct (parse c) as [v|]; [|constructor].
    destruct (as_array v) as [e|items]; [constructor|].
    destruct (V1.flag_matches n false items) as [e|[]]; cbn -[stringify];
      repeat (constructor; [status_in|]); constructor.
  - destruct n as [|ch n];
      [cbn; repeat (constructor; [status_in|]); constructor|].
    cbn [routed handler V1.handler].
    unfold V1.delete_note, bind, readFile, JSON_parse, sync.
    cbn -[parse stringify V1.split_matches].
    destruct (cache d) as [c|]; [|constructor].
    destruct (parse c) as [v|]; [|constructor].
    destruct (as_array v) as [e|items]; [constructor|].
    destruct (V1.split_matches (String ch n) false [] items) as [e|[[] kept]];
      cbn -[stringify]; repeat (constructor; [status_in|]); constructor.
Qed.

(** X3: whatever the store file holds, the documented variant answers an
    update with 201, 404 or 500, a create with 201, 400 or 500 and a delete
    with 200, 404 or 500, the 404 of the path /notes/ included. *)
Theorem documented_status_sets (d : disk) (n t : string) (b : json) :
  Forall (fun x => In (status x) [201; 404; 500])
    (responses (trace (snd (receive Documented (PutNote n b) d))))
  /\ Forall (fun x => In (status x) [201; 400; 500])
       (responses (trace (snd (receive Documented (PostWrite n t) d))))
  /\ Forall (fun x => In (status x) [200; 404; 500])
       (responses (trace (snd (receive Documented (DeleteNote n) d)))).
Proof.
  unfold receive. rewrite !run_responses. split; [|split].
  - destruct n as [|ch n];
      [cbn; repeat (constructor; [status_in|]); constructor|].
    cbn [routed handler V2.handler].
    unfold V2.put_note, catch, bind, readFile, JSON_parse, sync.
    cbn -[parse stringify array_find update_at truthy].
    destruct (cache d) as [content|];
      [|repeat (constructor; [status_in|]); constructor].
    destruct (parse content) as [[]|];
      try (repeat (constructor; [status_in|]); constructor).
    cbn -[array_find truthy stringify update_at].
    destruct (array_find (name_is (String ch n)) items) as [e|[[i el]|]];
      try (repeat (constructor; [status_in|]); constructor).
    destruct (truthy el);
      [|repeat (constructor; [status_in|]); constructor].
    unfold writeFile. cbn -[stringify update_at].
    destruct (writable d); cbn -[stringify update_at];
      repeat (constructor; [status_in|]); constructor.
  - cbn [routed handler V2.handler].
    unfold V2.post_write, catch, bind, readFile, JSON_parse, sync.
    cbn -[parse stringify array_some].
    destruct (cache d) as [content|];
      [|repeat (constructor; [status_in|]); constructor].
    destruct (parse content) as [[]|];
      try (repeat (constructor; [status_in|]); constructor).
    cbn -[array_some stringify].
    destruct (array_some (name_is n) items) as [e|[]];
      try (repeat (constructor; [status_in|]); constructor).
    unfold writeFile. cbn -[stringify].
    destruct (writable d); cbn -[stringify];
      repeat (constructor; [status_in|]); constructor.
  - destruct n as [|ch n];
      [cbn; repeat (constructor; [status_in|]); constructor|].
    cbn [routed handler V2.handler].
    unfold V2.delete_note, catch, bind, readFile, JSON_parse, sync.
    cbn -[parse stringify array_reject Nat.eqb].
    destruct (cache d) as [content|];
      [|repeat (constructor; [status_in|]); constructor].
    destruct (parse content) as [[]|];
      try (repeat (constructor; [status_in|]); constructor).
    cbn -[array_reject stringify Nat.eqb].
    destruct (array_reject (name_is (String ch n)) items) as [e|kept];
      try (repeat (constructor; [status_in|]); constructor).
    cbn -[stringify Nat.eqb].
    destruct (Nat.eqb (length items) (length kept)); cbn -[stringify];
      [repeat (constructor; [status_in|]); constructor|].
    unfold writeFile. cbn -[stringify].
    destruct (writable d); cbn -[stringify];
      repeat (constructor; [status_in|]); constructor.
Qed.

(** X4: when the store file does not exist, every handler of the documented
    variant answers 500, once, and the file is not created. *)
Theorem documented_missing_file (r : request) (w : bool) :
  serve Documented r (mkDisk None w)
  = (Fulfilled tt,
     mkWorld (mkDisk None w) 500 None [] [Responded error_response]).
Proof. destruct r; reflexivity. Qed.

(** X5: when the store file does not exist, every handler of Lab_5.js ends in
    a rejected promise: no response is sent and the file is not created. *)
Theorem lab5_missing_file (r : request) (w : bool) :
  serve Lab5 r (mkDisk None w)
  = (Rejected ENOENT, mkWorld (mkDisk None w) 200 None [] []).
Proof. destruct r; reflexivity. Qed.

(** X6: when the store file does not hold JSON, every handler of Lab_5.js
    that parses it ends in a rejected promise: no response is sent and the
    file stays as it is. *)
Theorem lab5_syntax_error (r : request) (d : disk) (content : string) :
  cache d = Some content -> parse content = None -> r <> ListNotes ->
  serve Lab5 r d = (Rejected SyntaxError, mkWorld d 200 None [] []).
Proof.
  intros Hc Hp Hr.
  destruct r; try contradiction;
    unfold serve, run, handler, V1.handler, V1.get_note, V1.put_note,
      V1.post_write, V1.delete_note, bind, readFile, JSON_parse, sync;
    cbn -[parse]; rewrite Hc, Hp; reflexivity.
Qed.

Lemma lab5_syntax_error_witness :
  let d := mkDisk (Some "[1,") true in
  cache d = Some "[1," /\ parse "[1," = None /\ PostWrite "a" "x" <> ListNotes
  /\ serve Lab5 (PostWrite "a" "x") d
     = (Rejected SyntaxError, mkWorld d 200 None [] []).
Proof.
  intro d.
  do 2 (split; [reflexivity|]). split; [discriminate|].
  apply (lab5_syntax_error (PostWrite "a" "x") d "[1," eq_refl eq_refl).
  discriminate.
Defined.

(** X7: an update of a name that no note has answers 404, once, whatever the
    body, and writes nothing: the file is the one before the request. *)
Theorem update_absent (v : variant) (d : disk) (ns : list Note) (n : string)
  (body : json) :
  stored d ns -> ~ In n (names ns) ->
  serve v (PutNote n body) d
  = (Fulfilled tt, mkWorld d 404 None [] [Responded (empty_response 404)]).
Proof.
  intros (c & Hc & Hp) Hn. pose proof (first_match_absent n ns Hn) as Hnone.
  apply not_named_notin in Hn.
  destruct v.
  - unfold serve, run, handler, V1.handler, V1.put_note.
    unfold bind at 1, readFile. cbn [fs]. rewrite Hc.
    unfold bind at 1, JSON_parse, sync. rewrite Hp.
    unfold bind at 1. cbn [store_value V1.array_like_length].
    unfold bind at 1. now rewrite update_loop_absent.
  - unfold serve, run, handler, V2.handler, V2.put_note, catch, bind, readFile,
      JSON_parse, sync.
    cbn -[parse stringify array_find]. rewrite Hc, Hp.
    cbn -[parse stringify array_find]. rewrite array_find_notes, Hnone.
    reflexivity.
Qed.

Lemma update_absent_witness :
  let d := mkDisk (Some (js "[{'name':'a','text':'x'}]")) true in
  let ns := [mkNote "a" "x"] in
  stored d ns /\ ~ In "A" (names ns)
  /\ serve Lab5 (PutNote "A" (JObj [("k", JNull)])) d
     = (Fulfilled tt, mkWorld d 404 None [] [Responded (empty_response 404)]).
Proof.
  intros d ns.
  assert (Hs : stored d ns) by (eexists; split; reflexivity).
  assert (Hn : ~ In "A" (names ns)) by (cbn; intuition discriminate).
  do 2 (split; [assumption|]).
  exact (update_absent Lab5 d ns "A" (JObj [("k", JNull)]) Hs Hn).
Defined.

(** X8: a create of a name some note has answers 400, once, and writes
    nothing, whether or not the file could be written. *)
Theorem create_existing (v : variant) (d : disk) (ns : list Note) (n t : string) :
  stored d ns -> In n (names ns) ->
  serve v (PostWrite n t) d
  = (Fulfilled tt, mkWorld d 400 None [] [Responded (empty_response 400)]).
Proof.
  intros (c & Hc & Hp) Hn. apply existsb_named_In in Hn.
  destruct v.
  - now rewrite (post_write_lab5 d c ns Hc Hp), Hn.
  - now rewrite (post_write_documented d c ns Hc Hp), Hn.
Qed.

Lemma create_existing_witness :
  let d := mkDisk (Some (js "[{'name':'a','text':'x'}]")) false in
  let ns := [mkNote "a" "x"] in
  stored d ns /\ In "a" (names ns)
  /\ serve Documented (PostWrite "a" "y") d
     = (Fulfilled tt, mkWorld d 400 None [] [Responded (empty_response 400)]).
Proof.
  intros d ns.
  assert (Hs : stored d ns) by (eexists; split; reflexivity).
  assert (Hn : In "a" (names ns)) by (cbn; auto).
  do 2 (split; [assumption|]).
  exact (create_existing Documented d ns "a" "y" Hs Hn).
Defined.

(** ** Fetches and operations on a store of notes *)

Lemma get_note_reply (v : variant) (d : disk) (ns : list Note) (n : string) :
  stored d ns ->
  reply (serve v (GetNote n) d) = Some (fetch_response (fetched n ns)).
Proof.
  intro Hs. unfold fetched, fetch_response.
  destruct v;
    [rewrite (get_note_lab5_reply d ns n Hs)
    | rewrite (get_note_documented_reply d ns n Hs)];
    now destruct (first_match n ns) as [[i x]|].
Qed.

Lemma fetched_present (n : string) (ns : list Note) :
  In n (names ns) <-> exists t, fetched n ns = Some t.
Proof.
  unfold fetched. rewrite <- existsb_named_In, first_match_exists.
  destruct (first_match n ns) as [[i x]|]; split.
  - intros _. now exists (text x).
  - reflexivity.
  - discriminate.
  - intros [t H]. discriminate.
Qed.

Lemma fetched_replace_text (n t : string) (ns : list Note) :
  In n (names ns) -> fetched n (replace_text n t ns) = Some t.
Proof.
  unfold fetched. induction ns as [|x ns IH]; intro H; [destruct H|].
  cbn [replace_text]. destruct (named n x) eqn:E.
  - cbn [first_match]. unfold named in *. cbn [name]. now rewrite E.
  - cbn [first_match]. rewrite E.
    assert (Hin : In n (names ns)).
    { destruct H as [H|H]; [|exact H].
      apply String.eqb_neq in E. congruence. }
    specialize (IH Hin).
    destruct (first_match n (replace_text n t ns)) as [[i y]|];
      [exact IH | discriminate].
Qed.

Lemma fetched_other_replace_text (n m t : string) (ns : list Note) :
  n <> m -> fetched m (replace_text n t ns) = fetched m ns.
Proof.
  intro Hnm. unfold fetched. induction ns as [|x ns IH]; [reflexivity|].
  cbn [replace_text]. destruct (named n x) eqn:E.
  - cbn [first_match]. unfold named in *. cbn [name].
    apply String.eqb_eq in E.
    assert (Hx : String.eqb (name x) m = false)
      by (apply String.eqb_neq; congruence).
    now rewrite Hx.
  - cbn [first_match]. destruct (named m x); [reflexivity|].
    destruct (first_match m (replace_text n t ns)) as [[i y]|],
             (first_match m ns) as [[j z]|]; congruence.
Qed.

Lemma fetched_other_without (n m : string) (ns : list Note) :
  n <> m -> fetched m (without n ns) = fetched m ns.
Proof.
  intro Hnm. unfold fetched, without.
  induction ns as [|x ns IH]; [reflexivity|].
  cbn [filter first_match]. destruct (named n x) eqn:E; cbn [negb].
  - apply String.eqb_eq in E.
    assert (Hx : named m x = false)
      by (apply String.eqb_neq; congruence).
    rewrite Hx.
    destruct (first_match m (filter (fun y => negb (named n y)) ns)) as [[i y]|],
             (first_match m ns) as [[j z]|]; congruence.
  - cbn [first_match]. destruct (named m x); [reflexivity|].
    destruct (first_match m (filter (fun y => negb (named n y)) ns)) as [[i y]|],
             (first_match m ns) as [[j z]|]; congruence.
Qed.

Lemma fetched_other_appended (n m t : string) (ns : list Note) :
  n <> m -> fetched m (ns ++ [mkNote n t]) = fetched m ns.
Proof.
  intro Hnm. unfold fetched. induction ns as [|x ns IH].
  - cbn. unfold named. cbn.
    assert (Hx : String.eqb n m = false) by now apply String.eqb_neq.
    now rewrite Hx.
  - cbn [app first_match]. destruct (named m x); [reflexivity|].
    destruct (first_match m (ns ++ [mkNote n t])) as [[i y]|],
             (first_match m ns) as [[j z]|]; congruence.
Qed.

Lemma fetched_other_effect (o : operation) (m : string) (ns : list Note) :
  target o <> m -> fetched m (effect ns o) = fetched m ns.
Proof.
  destruct o as [n t|n t|n]; cbn [target effect]; intro H.
  - destruct (existsb (named n) ns); [reflexivity|].
    now apply fetched_other_appended.
  - now apply fetched_other_replace_text.
  - now apply fetched_other_without.
Qed.

(** X9: a create of a name no note has answers 201 and leaves the notes it
    found, in their order, followed by the new note. *)
Theorem create_appends (v : variant) (d : disk) (ns : list Note) (n t : string) :
  stored d ns -> writable d = true -> ~ In n (names ns) ->
  reply (serve v (PostWrite n t) d) = Some (empty_response 201)
  /\ stored (disk_after (serve v (PostWrite n t) d)) (ns ++ [mkNote n t]).
Proof.
  intros (c & Hc & Hp) Hw Hn. apply not_named_notin in Hn.
  destruct v;
    [rewrite (post_write_lab5 d c ns Hc Hp)
    | rewrite (post_write_documented d c ns Hc Hp)];
    rewrite Hn, Hw; (split; [reflexivity | apply stored_written]).
Qed.

Lemma create_appends_witness :
  let d := mkDisk (Some (js "[{'name':'b','text':'x'}]")) true in
  let ns := [mkNote "b" "x"] in
  stored d ns /\ writable d = true /\ ~ In "a" (names ns)
  /\ reply (serve Lab5 (PostWrite "a" "y") d) = Some (empty_response 201)
  /\ stored (disk_after (serve Lab5 (PostWrite "a" "y") d))
       (ns ++ [mkNote "a" "y"]).
Proof.
  intros d ns.
  assert (Hs : stored d ns) by (eexists; split; reflexivity).
  assert (Hn : ~ In "a" (names ns)) by (cbn; intuition discriminate).
  do 3 (split; [assumption || reflexivity|]).
  exact (create_appends Lab5 d ns "a" "y" Hs eq_refl Hn).
Defined.

(** The handlers of the update and of the fetch, called one after the other
    with a name some note has. *)
Lemma update_then_get_handler (v : variant) (d : disk) (ns : list Note) (n t : string) :
  stored d ns -> writable d = true -> In n (names ns) ->
  (v = Lab5 -> NoDup (names ns)) ->
  reply (serve v (GetNote n) (disk_after (serve v (PutNote n (JStr t)) d)))
  = Some (mkResponse 200 (Some "text") (Some (Value (JStr t)))).
Proof.
  intros (c & Hc & Hp) Hw Hn Hnd.
  pose proof (fetched_replace_text n t ns Hn) as Hf.
  pose proof (stored_written (replace_text n t ns) true) as Hs.
  apply existsb_named_In in Hn.
  destruct v.
  - rewrite (put_note_lab5 d c ns Hc Hp n t (Hnd eq_refl)), Hn, Hw.
    unfold disk_after. cbn [snd fs].
    now rewrite (get_note_reply Lab5 _ _ n Hs), Hf.
  - rewrite (put_note_documented d c ns Hc Hp), Hw.
    rewrite first_match_exists in Hn.
    destruct (first_match n ns); [|discriminate].
    unfold disk_after. cbn [snd fs].
    now rewrite (get_note_reply Documented _ _ n Hs), Hf.
Qed.

(** X10: PUT /notes/:n for a name that is not empty and that some note has,
    then GET /notes/:n, answers 200 with the new text; in Lab_5.js for a
    store of pairwise distinct names. *)
Theorem update_then_get (v : variant) (d : disk) (ns : list Note) (n t : string) :
  n <> "" ->
  stored d ns -> writable d = true -> In n (names ns) ->
  (v = Lab5 -> NoDup (names ns)) ->
  reply (receive v (GetNote n) (disk_after (receive v (PutNote n (JStr t)) d)))
  = Some (mkResponse 200 (Some "text") (Some (Value (JStr t)))).
Proof.
  intros Hne Hs Hw Hn Hnd.
  rewrite receive_put, receive_get by exact Hne.
  exact (update_then_get_handler v d ns n t Hs Hw Hn Hnd).
Qed.

Lemma update_then_get_witness :
  let d := mkDisk (Some (js "[{'name':'a','text':'x'},{'name':'a','text':'y'}]")) true in
  let ns := [mkNote "a" "x"; mkNote "a" "y"] in
  "a" <> ""
  /\ stored d ns /\ writable d = true /\ In "a" (names ns)
  /\ (Documented = Lab5 -> NoDup (names ns))
  /\ reply (receive Documented (GetNote "a")
              (disk_after (receive Documented (PutNote "a" (JStr "z")) d)))
     = Some (mkResponse 200 (Some "text") (Some (Value (JStr "z")))).
Proof.
  intros d ns.
  assert (Hne : "a" <> "") by discriminate.
  assert (Hs : stored d ns) by (eexists; split; reflexivity).
  assert (Hn : In "a" (names ns)) by (cbn; auto).
  assert (Hv : Documented = Lab5 -> NoDup (names ns)) by discriminate.
  do 5 (split; [assumption || reflexivity|]).
  exact (update_then_get Documented d ns "a" "z" Hne Hs eq_refl Hn Hv).
Defined.

Lemma fetched_other_routed_effect (o : operation) (m : string)
  (ns : list Note) :
  target o <> m -> fetched m (routed_effect ns o) = fetched m ns.
Proof.
  intro H. unfold routed_effect.
  destruct (reaches o); [now apply fetched_other_effect | reflexivity].
Qed.

(** X11: an operation on one name does not change what GET /notes/:m answers
    for another name [m], not empty: creates, updates and deletes leave the
    other notes as they are. *)
Theorem other_names_untouched (v : variant) (o : operation) (d : disk)
  (ns : list Note) (m : string) :
  m <> "" ->
  stored d ns -> writable d = true -> NoDup (names ns) -> target o <> m ->
  reply (receive v (GetNote m) (disk_after (receive v (request_of o) d)))
  = reply (receive v (GetNote m) d).
Proof.
  intros Hne Hs Hw Hnd Hm.
  destruct (receive_operation v o d ns Hs Hw Hnd) as (Hs' & _ & _).
  rewrite !receive_get by exact Hne.
  rewrite (get_note_reply v _ _ m Hs'), (get_note_reply v _ _ m Hs).
  now rewrite fetched_other_routed_effect.
Qed.

Lemma other_names_untouched_witness :
  let d := mkDisk (Some (js "[{'name':'a','text':'x'},{'name':'b','text':'y'}]")) true in
  let ns := [mkNote "a" "x"; mkNote "b" "y"] in
  "b" <> ""
  /\ stored d ns /\ writable d = true /\ NoDup (names ns)
  /\ target (Delete "a") <> "b"
  /\ reply (receive Lab5 (GetNote "b")
              (disk_after (receive Lab5 (request_of (Delete "a")) d)))
     = reply (receive Lab5 (GetNote "b") d).
Proof.
  intros d ns.
  assert (Hne : "b" <> "") by discriminate.
  assert (Hs : stored d ns) by (eexists; split; reflexivity).
  assert (Hnd : NoDup (names ns))
    by (repeat constructor; cbn; intuition discriminate).
  assert (Hm : target (Delete "a") <> "b") by discriminate.
  do 5 (split; [assumption || reflexivity|]).
  exact (other_names_untouched Lab5 (Delete "a") d ns "b" Hne Hs eq_refl Hnd Hm).
Defined.

(** X12: GET /notes/:n with [n] not empty answers 404 exactly when no note
    has the name, compared byte for byte: no case folding, no trimming. *)
Theorem get_found_iff (v : variant) (d : disk) (ns : list Note) (n : string) :
  n <> "" ->
  stored d ns ->
  option_map status (reply (receive v (GetNote n) d)) = Some 404
  <-> ~ In n (names ns).
Proof.
  intros Hne Hs. rewrite receive_get by exact Hne.
  rewrite (get_note_reply v d ns n Hs), fetched_present.
  destruct (fetched n ns) as [t|]; cbn; split.
  - discriminate.
  - intro H. exfalso. apply H. now exists t.
  - intros _ [t H]. discriminate.
  - reflexivity.
Qed.

Lemma get_found_iff_witness :
  let d := mkDisk (Some (js "[{'name':'Note','text':'x'}]")) true in
  let ns := [mkNote "Note" "x"] in
  "note" <> "" /\ stored d ns
  /\ (option_map status (reply (receive Documented (GetNote "note") d)) = Some 404
      <-> ~ In "note" (names ns)).
Proof.
  intros d ns.
  assert (Hne : "note" <> "") by discriminate.
  assert (Hs : stored d ns) by (eexists; split; reflexivity).
  do 2 (split; [assumption|]).
  exact (get_found_iff Documented d ns "note" Hne Hs).
Defined.

(** X13: after a delete, a second delete of the same name answers 404 and
    leaves the file as the first delete left it. *)
Theorem delete_twice (v : variant) (d : disk) (ns : list Note) (n : string) :
  stored d ns -> writable d = true ->
  serve v (DeleteNote n) (disk_after (serve v (DeleteNote n) d))
  = (Fulfilled tt,
     mkWorld (disk_after (serve v (DeleteNote n) d)) 404 None []
       [Responded (empty_response 404)]).
Proof.
  intros Hs Hw. pose proof Hs as (c & Hc & Hp).
  assert (Hd : stored (disk_after (serve v (DeleteNote n) d)) (without n ns)).
  { replace (disk_after (serve v (DeleteNote n) d))
      with (if existsb (named n) ns
            then mkDisk (Some (stringify (store_value (without n ns)))) true
            else d).
    2:{ destruct v;
          [rewrite (delete_note_lab5 d c ns Hc Hp)
          | rewrite (delete_note_documented d c ns Hc Hp)];
          rewrite Hw; now destruct (existsb (named n) ns). }
    destruct (existsb (named n) ns) eqn:E; [apply stored_written|].
    now rewrite (without_absent n ns E). }
  destruct Hd as (c' & Hc' & Hp').
  pose proof (proj2 (not_named_notin n (without n ns)) (without_notin n ns)) as E.
  destruct v.
  - now rewrite (delete_note_lab5 _ c' _ Hc' Hp'), E.
  - now rewrite (delete_note_documented _ c' _ Hc' Hp'), E.
Qed.

Lemma delete_twice_witness :
  let d := mkDisk (Some (js "[{'name':'a','text':'x'},{'name':'b','text':'y'}]")) true in
  let ns := [mkNote "a" "x"; mkNote "b" "y"] in
  stored d ns /\ writable d = true
  /\ serve Documented (DeleteNote "a")
       (disk_after (serve Documented (DeleteNote "a") d))
     = (Fulfilled tt,
        mkWorld (disk_after (serve Documented (DeleteNote "a") d)) 404 None []
          [Responded (empty_response 404)]).
Proof.
  intros d ns.
  assert (Hs : stored d ns) by (eexists; split; reflexivity).
  do 2 (split; [assumption || reflexivity|]).
  exact (delete_twice Documented d ns "a" Hs eq_refl).
Defined.

(** ** Writes that fail *)

(** X14: when the file cannot be written, an operation that has to write is
    answered 500 by the documented variant, after the failed write, and the
    file is as it was. *)
Theorem documented_write_failure (o : operation) (d : disk) (ns : list Note) :
  stored d ns -> writable d = false -> applies ns o = true ->
  serve Documented (request_of o) d
  = (Fulfilled tt,
     mkWorld d 500 None [] [WriteFailed; Responded error_response]).
Proof.
  intros (c & Hc & Hp) Hw Ha.
  destruct o as [n t|n t|n]; cbn [request_of applies] in *.
  - apply negb_true_iff in Ha.
    now rewrite (post_write_documented d c ns Hc Hp), Ha, Hw.
  - rewrite (put_note_documented d c ns Hc Hp), Hw.
    rewrite first_match_exists in Ha.
    now destruct (first_match n ns).
  - now rewrite (delete_note_documented d c ns Hc Hp), Ha, Hw.
Qed.

Lemma documented_write_failure_witness :
  let d := mkDisk (Some (js "[{'name':'a','text':'x'}]")) false in
  let ns := [mkNote "a" "x"] in
  stored d ns /\ writable d = false /\ applies ns (Update "a" "y") = true
  /\ serve Documented (request_of (Update "a" "y")) d
     = (Fulfilled tt,
        mkWorld d 500 None [] [WriteFailed; Responded error_response]).
Proof.
  intros d ns.
  assert (Hs : stored d ns) by (eexists; split; reflexivity).
  do 3 (split; [assumption || reflexivity|]).
  exact (documented_write_failure (Update "a" "y") d ns Hs eq_refl eq_refl).
Defined.

(** X15: when the file cannot be written, Lab_5.js still reports the success
    of an operation that reaches its handler and has to write: the response,
    201 for a create or an update (followed by the 404 after the loop of the
    update) and 200 for a delete, is finished first, the write fails after
    it, and the file is as it was. *)
Theorem lab5_write_failure (o : operation) (d : disk) (ns : list Note) :
  stored d ns -> writable d = false -> NoDup (names ns) ->
  applies ns o = true -> reaches o = true ->
  trace (snd (receive Lab5 (request_of o) d))
  = match o with
    | Create _ _ => [Responded (empty_response 201); WriteFailed]
    | Update _ _ =>
        [Responded (empty_response 201); Responded (empty_response 404);
         WriteFailed]
    | Delete _ => [Responded (empty_response 200); WriteFailed]
    end
  /\ disk_after (receive Lab5 (request_of o) d) = d.
Proof.
  intros (c & Hc & Hp) Hw Hnd Ha Hr.
  destruct o as [n t|n t|n]; cbn [request_of applies reaches] in *.
  - apply negb_true_iff in Ha.
    rewrite receive_post, (post_write_lab5 d c ns Hc Hp), Ha, Hw.
    split; reflexivity.
  - rewrite receive_put by now apply nonempty_neq.
    rewrite (put_note_lab5 d c ns Hc Hp n t Hnd), Ha, Hw.
    split; reflexivity.
  - rewrite receive_delete by now apply nonempty_neq.
    rewrite (delete_note_lab5 d c ns Hc Hp), Ha, Hw.
    split; reflexivity.
Qed.

Lemma lab5_write_failure_witness :
  let d := mkDisk (Some (js "[{'name':'a','text':'x'}]")) false in
  let ns := [mkNote "a" "x"] in
  let o := Update "a" "y" in
  stored d ns /\ writable d = false /\ NoDup (names ns)
  /\ applies ns o = true /\ reaches o = true
  /\ trace (snd (receive Lab5 (request_of o) d))
     = [Responded (empty_response 201); Responded (empty_response 404);
        WriteFailed]
  /\ disk_after (receive Lab5 (request_of o) d) = d.
Proof.
  intros d ns o.
  assert (Hs : stored d ns) by (eexists; split; reflexivity).
  assert (Hnd : NoDup (names ns))
    by (repeat constructor; cbn; intuition discriminate).
  do 5 (split; [assumption || reflexivity|]).
  exact (lab5_write_failure o d ns Hs eq_refl Hnd eq_refl eq_refl).
Defined.

(** ** The fetch and the update of Lab_5.js *)

Lemma send_matches_absent (n : string) (l : list Note) :
  forall w,
    ~ In n (names l) ->
    V1.send_matches n (map note_value l) w = (Fulfilled tt, w).
Proof.
  induction l as [|x l IH]; intros w H; [reflexivity|].
  cbn [names map In] in H.
  cbn [map V1.send_matches]. unfold bind at 1, sync. rewrite name_is_note.
  destruct (named n x) eqn:E.
  - apply String.eqb_eq in E. tauto.
  - unfold bind at 1, ret. apply IH. tauto.
Qed.

Lemma send_matches_again (n : string) (l : list Note) :
  forall w,
    headersSent w = true -> In n (names l) ->
    V1.send_matches n (map note_value l) w
    = (Rejected ERR_HTTP_HEADERS_SENT,
       mkWorld (fs w) 200 (contentType w) (pending w) (trace w)).
Proof.
  induction l as [|x l IH]; intros w Hw H; [destruct H|].
  cbn [map V1.send_matches]. unfold bind at 1, sync. rewrite name_is_note.
  destruct (named n x) eqn:E.
  - unfold bind, res_status, res_type, headersSent in *. cbn [trace].
    now rewrite Hw.
  - unfold bind at 1, ret. apply IH; [exact Hw|].
    destruct H as [H|H]; [|exact H].
    apply String.eqb_neq in E. congruence.
Qed.

Lemma send_matches_first (n : string) (before after : list Note) (x : Note) :
  forall w,
    headersSent w = false -> ~ In n (names before) -> name x = n ->
    V1.send_matches n (map note_value (before ++ x :: after)) w
    = V1.send_matches n (map note_value after)
        (mkWorld (fs w) 200 (Some "text") (pending w)
           (trace w ++ [Responded (found_response x)])).
Proof.
  induction before as [|y before IH]; intros w Hw Hb Hx.
  - cbn [app map V1.send_matches]. unfold bind at 1, sync.
    rewrite name_is_note. unfold named. rewrite Hx, String.eqb_refl.
    unfold headersSent in Hw.
    unfold bind at 1. unfold bind at 1, res_status.
    unfold bind at 1, res_type, headersSent. cbn [trace]. rewrite Hw.
    unfold bind at 1, sync. cbn [get_prop note_value new_note lookup].
    change (String.eqb "name" "text") with false.
    change (String.eqb "text" "text") with true. cbv iota.
    unfold res_send, headersSent, log. cbn [trace fs statusCode contentType pending].
    rewrite Hw. reflexivity.
  - cbn [names map In] in Hb.
    cbn [app map V1.send_matches]. unfold bind at 1, sync.
    rewrite name_is_note.
    destruct (named n y) eqn:E; [apply String.eqb_eq in E; tauto|].
    unfold bind at 1, ret. apply IH; tauto.
Qed.

(** X16: in Lab_5.js a fetch that finds exactly one note of the name
    finishes the response twice: with 200 and the text, and then, after the
    scan, with 404; the client has the first. *)
Theorem lab5_get_responds_twice (d : disk) (before after : list Note)
  (x : Note) :
  stored d (before ++ x :: after) ->
  ~ In (name x) (names before) -> ~ In (name x) (names after) ->
  serve Lab5 (GetNote (name x)) d
  = (Fulfilled tt,
     mkWorld d 404 (Some "text") []
       [Responded (found_response x);
        Responded (mkResponse 404 (Some "text") None)]).
Proof.
  intros (c & Hc & Hp) Hb Ha.
  unfold serve, run, handler, V1.handler, V1.get_note.
  unfold bind at 1, readFile. cbn [fs]. rewrite Hc.
  unfold bind at 1, JSON_parse, sync. rewrite Hp.
  unfold bind at 1. cbn [store_value as_array].
  unfold bind at 1.
  rewrite send_matches_first by (reflexivity || assumption).
  rewrite send_matches_absent by assumption.
  reflexivity.
Qed.

Lemma lab5_get_responds_twice_witness :
  let d := mkDisk (Some (js "[{'name':'b','text':'y'},{'name':'a','text':'x'}]")) true in
  let x := mkNote "a" "x" in
  stored d ([mkNote "b" "y"] ++ x :: [])
  /\ ~ In (name x) (names [mkNote "b" "y"]) /\ ~ In (name x) (names [])
  /\ serve Lab5 (GetNote (name x)) d
     = (Fulfilled tt,
        mkWorld d 404 (Some "text") []
          [Responded (found_response x);
           Responded (mkResponse 404 (Some "text") None)]).
Proof.
  intros d x.
  assert (Hs : stored d ([mkNote "b" "y"] ++ x :: []))
    by (eexists; split; reflexivity).
  assert (Hb : ~ In (name x) (names [mkNote "b" "y"]))
    by (cbn; intuition discriminate).
  assert (Ha : ~ In (name x) (names [])) by (cbn; tauto).
  do 3 (split; [assumption|]).
  exact (lab5_get_responds_twice d [mkNote "b" "y"] [] x Hs Hb Ha).
Defined.

(** X17: in Lab_5.js a fetch of a name that several notes have sends the text
    of the first and throws on the second, when it sets the type of a
    response that is finished: the promise is rejected and the 404 after the
    scan is never reached. *)
Theorem lab5_get_duplicate_throws (d : disk) (before after : list Note)
  (x : Note) :
  stored d (before ++ x :: after) ->
  ~ In (name x) (names before) -> In (name x) (names after) ->
  serve Lab5 (GetNote (name x)) d
  = (Rejected ERR_HTTP_HEADERS_SENT,
     mkWorld d 200 (Some "text") [] [Responded (found_response x)]).
Proof.
  intros (c & Hc & Hp) Hb Ha.
  unfold serve, run, handler, V1.handler, V1.get_note.
  unfold bind at 1, readFile. cbn [fs]. rewrite Hc.
  unfold bind at 1, JSON_parse, sync. rewrite Hp.
  unfold bind at 1. cbn [store_value as_array].
  unfold bind at 1.
  rewrite send_matches_first by (reflexivity || assumption).
  rewrite send_matches_again by (reflexivity || assumption).
  reflexivity.
Qed.

Lemma lab5_get_duplicate_throws_witness :
  let d := mkDisk (Some (js "[{'name':'a','text':'x'},{'name':'a','text':'y'}]")) true in
  let x := mkNote "a" "x" in
  stored d ([] ++ x :: [mkNote "a" "y"])
  /\ ~ In (name x) (names []) /\ In (name x) (names [mkNote "a" "y"])
  /\ serve Lab5 (GetNote (name x)) d
     = (Rejected ERR_HTTP_HEADERS_SENT,
        mkWorld d 200 (Some "text") [] [Responded (found_response x)]).
Proof.
  intros d x.
  assert (Hs : stored d ([] ++ x :: [mkNote "a" "y"]))
    by (eexists; split; reflexivity).
  assert (Hb : ~ In (name x) (names [])) by (cbn; tauto).
  assert (Ha : In (name x) (names [mkNote "a" "y"])) by (cbn; auto).
  do 3 (split; [assumption|]).
  exact (lab5_get_duplicate_throws d [] [mkNote "a" "y"] x Hs Hb Ha).
Defined.

(** X18: in Lab_5.js, on every store of pairwise distinct names, an update
    that finds its note finishes the response with 201 and then with 404,
    both before the write completes; the write leaves the text of that note
    replaced and every note in its place. *)
Theorem lab5_update_responds_twice (d : disk) (ns : list Note) (n t : string) :
  stored d ns -> writable d = true -> NoDup (names ns) -> In n (names ns) ->
  trace (snd (serve Lab5 (PutNote n (JStr t)) d))
  = [Responded (empty_response 201); Responded (empty_response 404);
     Wrote (stringify (store_value (replace_text n t ns)))]
  /\ stored (disk_after (serve Lab5 (PutNote n (JStr t)) d))
       (replace_text n t ns).
Proof.
  intros (c & Hc & Hp) Hw Hnd Hn. apply existsb_named_In in Hn.
  rewrite (put_note_lab5 d c ns Hc Hp n t Hnd), Hn, Hw.
  split; [reflexivity | apply stored_written].
Qed.

Lemma lab5_update_responds_twice_witness :
  let d := mkDisk (Some (js "[{'name':'b','text':'y'},{'name':'a','text':'x'}]")) true in
  let ns := [mkNote "b" "y"; mkNote "a" "x"] in
  stored d ns /\ writable d = true /\ NoDup (names ns) /\ In "a" (names ns)
  /\ trace (snd (serve Lab5 (PutNote "a" (JStr "z")) d))
     = [Responded (empty_response 201); Responded (empty_response 404);
        Wrote (stringify (store_value (replace_text "a" "z" ns)))]
  /\ stored (disk_after (serve Lab5 (PutNote "a" (JStr "z")) d))
       (replace_text "a" "z" ns).
Proof.
  intros d ns.
  assert (Hs : stored d ns) by (eexists; split; reflexivity).
  assert (Hnd : NoDup (names ns))
    by (repeat constructor; cbn; intuition discriminate).
  assert (Hn : In "a" (names ns)) by (cbn; auto).
  do 4 (split; [assumption || reflexivity|]).
  exact (lab5_update_responds_twice d ns "a" "z" Hs eq_refl Hnd Hn).
Defined.

(** ** Reads *)

Lemma forallb_responded (rs : list response) :
  forallb is_response (map Responded rs) = true.
Proof. induction rs as [|r rs IH]; [reflexivity | exact IH]. Qed.

Lemma lab5_get_shape (n : string) (d : disk) :
  exists r code type rs,
    serve Lab5 (GetNote n) d = (r, mkWorld d code type [] (map Responded rs)).
Proof.
  unfold serve, run, handler, V1.handler, V1.get_note.
  unfold bind at 1, readFile. cbn [fs].
  destruct (cache d) as [c|];
    [|now exists (Rejected ENOENT), 200, None, []].
  unfold bind at 1, JSON_parse, sync.
  destruct (parse c) as [p|];
    [|now exists (Rejected SyntaxError), 200, None, []].
  unfold bind at 1. destruct (as_array p) as [e|items];
    [now exists (Rejected e), 200, None, []|].
  unfold bind at 1.
  destruct (send_matches_effects n items (mkWorld d 200 None [] []))
    as (r & code & ty & rs & -> & _).
  destruct r; cbn.
  - exists (Fulfilled tt), 404, ty, (rs ++ [mkResponse 404 ty None]).
    now rewrite map_app.
  - now exists (Rejected e), code, ty, rs.
Qed.

(** X19: the list endpoint and the fetch never write: whatever the file
    holds, in either variant the file after the request is the file before
    it and the request leaves no event but responses. *)
Theorem reads_never_write (v : variant) (d : disk) (n : string) :
  (disk_after (serve v ListNotes d) = d
   /\ forallb is_response (trace (snd (serve v ListNotes d))) = true)
  /\ (disk_after (serve v (GetNote n) d) = d
      /\ forallb is_response (trace (snd (serve v (GetNote n) d))) = true).
Proof.
  split.
  - destruct v;
      unfold disk_after, serve, run, handler, V1.handler, V2.handler,
        V1.list_notes, V2.list_notes, catch, bind, readFile;
      cbn; destruct (cache d); split; reflexivity.
  - destruct v.
    + destruct (lab5_get_shape n d) as (r & code & ty & rs & ->).
      unfold disk_after. cbn [snd fs trace].
      split; [reflexivity | apply forallb_responded].
    + unfold disk_after, serve, run, handler, V2.handler, V2.get_note, catch,
        bind, readFile, JSON_parse, sync.
      cbn -[parse array_find truthy get_prop].
      destruct (cache d) as [c|]; [|split; reflexivity].
      destruct (parse c) as [[]|]; try (split; reflexivity).
      cbn -[array_find truthy get_prop].
      destruct (array_find (name_is n) items) as [e|[[i el]|]];
        try (split; reflexivity).
      destruct el; cbn; try (split; reflexivity).
      * destruct b; split; reflexivity.
      * destruct (zero_literal lit); split; reflexivity.
      * destruct s; split; reflexivity.
Qed.

(** ** The start of the process *)

(** X20: the start never overwrites a store file that exists, whatever it
    holds, and starting again changes nothing: the start is idempotent. *)
Theorem bootstrap_idempotent (d : disk) :
  bootstrap (bootstrap d) = bootstrap d
  /\ match cache d with
     | Some _ => bootstrap d = d
     | None => True
     end.
Proof. destruct d as [[c|] []]; split; reflexivity || exact I. Qed.

(** X21: after the start on a directory the process may write, the list
    endpoint of either variant answers 200: with the bytes of the file that
    was there, or with the text of the empty array when there was none. *)
Theorem bootstrap_then_list (v : variant) (d : disk) :
  writable d = true ->
  reply (serve v ListNotes (bootstrap d))
  = Some (mkResponse 200 (Some "json")
            (Some (Buffer match cache d with
                          | Some content => content
                          | None => "[]"
                          end))).
Proof.
  intro Hw. destruct d as [[c|] w]; cbn in Hw; subst w; destruct v; reflexivity.
Qed.

Lemma bootstrap_then_list_witness :
  let d := mkDisk None true in
  writable d = true
  /\ reply (serve Lab5 ListNotes (bootstrap d))
     = Some (mkResponse 200 (Some "json") (Some (Buffer "[]"))).
Proof.
  intro d. split; [reflexivity|].
  exact (bootstrap_then_list Lab5 d eq_refl).
Defined.

(** ** The upload form *)

(** X22: the upload form is served from its own file, whatever the state of
    the store, and the store is not touched: 200 with the bytes of the form
    and the type html; when the form cannot be read, 500 in the documented
    variant and no response at all in Lab_5.js. *)
Theorem upload_form_any_store (v : variant) (file : option string) (d : disk) :
  run (upload_form v file) d
  = match file, v with
    | Some form, _ =>
        (Fulfilled tt,
         mkWorld d 200 (Some "html") []
           [Responded (mkResponse 200 (Some "html") (Some (Buffer form)))])
    | None, Documented =>
        (Fulfilled tt, mkWorld d 500 None [] [Responded error_response])
    | None, Lab5 => (Rejected ENOENT, mkWorld d 200 None [] [])
    end.
Proof. destruct v, file; reflexivity. Qed.

(** ** Entries that are not notes *)

Lemma array_reject_null (n : string) (items : list json) :
  In JNull items -> array_reject (name_is n) items = inl TypeError.
Proof.
  induction items as [|x items IH]; intro H; [destruct H|].
  cbn [array_reject].
  destruct x; try (destruct H as [H|H]; [discriminate|]);
    try reflexivity;
    cbn [name_is get_prop]; rewrite (IH H); reflexivity.
Qed.

(** X23: a null entry in the array of the store makes every delete of the
    documented variant fail: the scan throws on the entry, the handler
    answers 500 and the file stays as it is, so that the service cannot
    remove the entry. *)
Theorem documented_delete_null (d : disk) (content : string)
  (items : list json) (n : string) :
  cache d = Some content -> parse content = Some (JArr items) ->
  In JNull items ->
  serve Documented (DeleteNote n) d
  = (Fulfilled tt, mkWorld d 500 None [] [Responded error_response]).
Proof.
  intros Hc Hp Hnull.
  unfold serve, run, handler, V2.handler, V2.delete_note, catch, bind, readFile,
    JSON_parse, sync.
  cbn -[parse stringify array_reject Nat.eqb]. rewrite Hc, Hp.
  cbn -[parse stringify array_reject Nat.eqb].
  now rewrite (array_reject_null n items Hnull).
Qed.

Lemma documented_delete_null_witness :
  let content := js "[{'name':'a','text':'x'},null]" in
  let d := mkDisk (Some content) true in
  let items := [note_value (mkNote "a" "x"); JNull] in
  cache d = Some content /\ parse content = Some (JArr items)
  /\ In JNull items
  /\ serve Documented (DeleteNote "a") d
     = (Fulfilled tt, mkWorld d 500 None [] [Responded error_response]).
Proof.
  intros content d items.
  assert (Hnull : In JNull items) by (cbn; auto).
  do 2 (split; [reflexivity|]). split; [assumption|].
  exact (documented_delete_null d content items "a" eq_refl eq_refl Hnull).
Defined.
